(** * ChatTTS-Forge: the web UI request builder and the stream encoders

    A shallow embedding of [modules/webui/webui_utils.py] and
    [modules/core/handler/encoder/encoders.py], with the properties of the
    request pipeline that the specification states about them. *)

From Stdlib Require Import ZArith Lia List Bool Ascii String DecimalString.
From Stdlib Require Import Floats.PrimFloat Floats.SpecFloat Floats.FloatOps.
From Stdlib Require Import Sorting.Sorted Sorting.Permutation DecimalZ.
From stdpp Require Import base option gmap strings.

Import ListNotations.
Local Open Scope string_scope.
Local Open Scope Z_scope.

(** ** Python values *)

Module Py.

(** [TTSSpeaker]: the fields the web UI reads, and an opaque embedding. *)
Record TTSSpeaker := mkSpeaker {
  spk_name : string;
  spk_gender : string;
  spk_desc : string;
  spk_emb : list Z
}.

(** The values that reach the functions of the web UI: [None], [bool],
    [int], [float] (a binary64, as the kernel's primitive float), [str]
    (code points below 256) and speaker objects. *)
Inductive pyval :=
| PyNone
| PyBool (b : bool)
| PyInt (z : Z)
| PyFloat (f : float)
| PyStr (s : string)
| PySpk (s : TTSSpeaker).

(** Truth value testing: [None], [False], zero of a numeric type and the
    empty string are false; every other value, [-1] among them, is true. *)
Definition truthy (v : pyval) : bool :=
  match v with
  | PyNone => false
  | PyBool b => b
  | PyInt z => negb (z =? 0)
  | PyFloat f => negb (PrimFloat.eqb f 0%float)
  | PyStr s => negb (String.eqb s "")
  | PySpk _ => true
  end.

(** [a or b]: [a] when it is true, [b] otherwise. *)
Definition py_or (a b : pyval) : pyval := if truthy a then a else b.

(** [d.get(k, dflt)] on a dict with string keys. *)
Definition dict_get (d : gmap string pyval) (k : string) (dflt : pyval) : pyval :=
  default dflt (d !! k).

(** A keyword argument with a default value: [None] when the caller leaves
    it out. *)
Definition kwarg (dflt : pyval) (a : option pyval) : pyval := default dflt a.

(** [isinstance(v, int)]: [bool] is a subclass of [int]. *)
Definition as_int (v : pyval) : option Z :=
  match v with
  | PyInt z => Some z
  | PyBool b => Some (if b then 1 else 0)
  | _ => None
  end.

(** *** Exceptions *)

Inductive exn :=
| GrError (msg : string)          (* gr.Error *)
| ValueError (msg : string)
| OverflowError (msg : string)
| TypeError (msg : string)
| OtherException (msg : string).  (* any other subclass of Exception *)

(** [str(e)], as an f-string prints an exception. *)
Definition exn_str (e : exn) : string :=
  match e with
  | GrError m | ValueError m | OverflowError m | TypeError m | OtherException m => m
  end.

(** *** Strings *)

(** [c.isspace()] for a code point below 256. *)
Definition isspace (c : ascii) : bool :=
  let n := N_of_ascii c in
  (((9 <=? n) && (n <=? 13)) || ((28 <=? n) && (n <=? 32))
   || (n =? 133) || (n =? 160))%N.

Fixpoint lstrip (s : string) : string :=
  match s with
  | EmptyString => EmptyString
  | String c s' => if isspace c then lstrip s' else s
  end.

Fixpoint rstrip (s : string) : string :=
  match s with
  | EmptyString => EmptyString
  | String c s' =>
      let r := rstrip s' in
      if isspace c && String.eqb r "" then EmptyString else String c r
  end.

(** [s.strip()] *)
Definition strip (s : string) : string := rstrip (lstrip s).

(** [len(s)] *)
Definition len (s : string) : Z := Z.of_nat (String.length s).

(** [s[0:n]]: a negative stop counts from the end of the string. *)
Definition slice_to (s : string) (n : Z) : string :=
  let stop := if n <? 0 then Z.max 0 (len s + n) else n in
  String.substring 0 (Z.to_nat stop) s.

(** [str(z)] for an [int]: decimal digits, with a minus sign when negative. *)
Definition str_of_int (z : Z) : string :=
  DecimalString.NilZero.string_of_int (Z.to_int z).

(** ["".join(l)] *)
Definition join (l : list string) : string := fold_right String.append "" l.

(** *** binary64 values, exactly

    A [numpy.float64] (or a Python [float]) as the number it stands for:
    [F64_fin m e] is [m * 2^e]. *)
Inductive f64 :=
| F64_nan
| F64_inf (neg : bool)
| F64_fin (m e : Z).

Definition f64_of_float (f : float) : f64 :=
  match Prim2SF f with
  | S754_nan => F64_nan
  | S754_infinity s => F64_inf s
  | S754_zero _ => F64_fin 0 0
  | S754_finite s m e => F64_fin (if s then Z.neg m else Z.pos m) e
  end.

(** Conversion of an [int] to binary64: exact up to 53 significant bits,
    beyond that rounded to the nearest double, ties to even, and to an
    infinity from [2^1024] on. *)
Definition float64_of_int (z : Z) : f64 :=
  let a := Z.abs z in
  let sh := Z.log2 a - 52 in
  if sh <=? 0 then F64_fin z 0
  else
    let q := Z.shiftr a sh in
    let r := Z.land a (Z.ones sh) in
    let half := Z.shiftl 1 (sh - 1) in
    let q' := if (half <? r) || ((r =? half) && Z.odd q) then q + 1 else q in
    if 2 ^ 1024 <=? Z.shiftl q' sh then F64_inf (z <? 0)
    else F64_fin (Z.sgn z * q') sh.

(** [x < y] on binary64 values; false as soon as one of them is a NaN. *)
Definition f64_ltb (x y : f64) : bool :=
  match x, y with
  | F64_nan, _ | _, F64_nan => false
  | F64_inf true, F64_inf true => false
  | F64_inf true, _ => true
  | _, F64_inf true => false
  | F64_inf false, _ => false
  | _, F64_inf false => true
  | F64_fin m1 e1, F64_fin m2 e2 =>
      let e := Z.min e1 e2 in
      Z.shiftl m1 (e1 - e) <? Z.shiftl m2 (e2 - e)
  end.

(** [x == y] on binary64 values. *)
Definition f64_eqb (x y : f64) : bool :=
  match x, y with
  | F64_inf a, F64_inf b => Bool.eqb a b
  | F64_fin m1 e1, F64_fin m2 e2 =>
      let e := Z.min e1 e2 in
      Z.shiftl m1 (e1 - e) =? Z.shiftl m2 (e2 - e)
  | _, _ => false
  end.

Definition f64_isnan (x : f64) : bool :=
  match x with F64_nan => true | _ => false end.

(** [numpy.maximum] and [numpy.minimum]: a NaN operand is the result. *)
Definition np_maximum (x y : f64) : f64 :=
  if f64_isnan x then x else if f64_isnan y then y
  else if f64_ltb x y then y else x.

Definition np_minimum (x y : f64) : f64 :=
  if f64_isnan x then x else if f64_isnan y then y
  else if f64_ltb y x then y else x.

(** [numpy.clip(a, a_min, a_max, out=None, dtype=numpy.float64)] on a
    scalar: the operands are converted to binary64, and the result is
    [minimum(maximum(a, a_min), a_max)]. An [int] is taken as a 64-bit
    integer, signed or unsigned, on its way to binary64: one below [-2^63]
    or from [2^64] on becomes an array of objects, which the binary64 loop
    refuses with a [UFuncTypeError], a [TypeError]. A value that is not a
    number is refused as well. NumPy is no part of the repository: this is
    its observable behaviour. *)
Definition np_clip_float64 (a : pyval) (a_min a_max : Z) : exn + f64 :=
  let clip x :=
    np_minimum (np_maximum x (float64_of_int a_min)) (float64_of_int a_max) in
  match a with
  | PyInt z =>
      if (- 2 ^ 63 <=? z) && (z <? 2 ^ 64)
      then inr (clip (float64_of_int z))
      else inl (TypeError "Cannot cast ufunc 'clip' input 0 from dtype('O') to dtype('float64')")
  | PyBool b => inr (clip (float64_of_int (if b then 1 else 0)))
  | PyFloat f => inr (clip (f64_of_float f))
  | PyNone | PyStr _ | PySpk _ =>
      inl (TypeError "ufunc 'clip' not supported for the input types")
  end.

(** [int(x)] for a binary64 [x]: truncation towards zero. *)
Definition int_of_f64 (x : f64) : exn + Z :=
  match x with
  | F64_nan => inl (ValueError "cannot convert float NaN to integer")
  | F64_inf _ => inl (OverflowError "cannot convert float infinity to integer")
  | F64_fin m e => inr (if 0 <=? e then Z.shiftl m e else Z.quot m (2 ^ (- e)))
  end.

(** [v == c] for a float [c]: numbers are compared by their exact values,
    and a value that is not a number is different from every float. *)
Definition py_eq_float (v : pyval) (c : float) : bool :=
  match v with
  | PyFloat f => PrimFloat.eqb f c
  | PyInt z => f64_eqb (F64_fin z 0) (f64_of_float c)
  | PyBool b => f64_eqb (F64_fin (if b then 1 else 0) 0) (f64_of_float c)
  | PyNone | PyStr _ | PySpk _ => false
  end.

(** *** Sorting

    [l.sort(key=key)] for string keys: the sort of Python is stable and
    ascending, and [str] is ordered by code points. A stable sort has one
    result, which insertion from the right computes. *)
Section Sort.
Context {A : Type} (key : A -> string).

Fixpoint sort_insert (x : A) (l : list A) : list A :=
  match l with
  | [] => [x]
  | y :: r =>
      if String.leb (key x) (key y) then x :: y :: r
      else y :: sort_insert x r
  end.

Fixpoint sort_by_key (l : list A) : list A :=
  match l with
  | [] => []
  | x :: r => sort_insert x (sort_by_key r)
  end.

End Sort.

(** [s.startswith(p)] *)
Definition startswith (s p : string) : bool := String.prefix p s.

End Py.

(** ** encoders.py *)

Module Encoders.
Import Py.

(** What [StreamEncoder.open] receives from a subclass. *)
Record open_call := mkOpen {
  oc_format : string;
  oc_acodec : pyval;
  oc_bitrate : pyval
}.

Definition StreamEncoder_open (format : string) (acodec bitrate : pyval) : open_call :=
  {| oc_format := format; oc_acodec := acodec; oc_bitrate := bitrate |}.

Definition Mp3Encoder_open (acodec bitrate : option pyval) : open_call :=
  let acodec := kwarg (PyStr "libmp3lame") acodec in
  let bitrate := kwarg (PyStr "128k") bitrate in
  let acodec := py_or acodec (PyStr "libmp3lame") in
  StreamEncoder_open "mp3" acodec bitrate.

Definition WavEncoder_open (acodec bitrate : option pyval) : open_call :=
  let acodec := kwarg (PyStr "pcm_s16le") acodec in
  let bitrate := kwarg (PyStr "128k") bitrate in
  let acodec := py_or acodec (PyStr "pcm_s16le") in
  StreamEncoder_open "wav" acodec bitrate.

Definition OggEncoder_open (acodec bitrate : option pyval) : open_call :=
  let acodec := kwarg (PyStr "libvorbis") acodec in
  let bitrate := kwarg (PyStr "128k") bitrate in
  let acodec := py_or acodec (PyStr "libvorbis") in
  StreamEncoder_open "ogg" acodec bitrate.

Definition FlacEncoder_open (acodec bitrate : option pyval) : open_call :=
  let acodec := kwarg (PyStr "flac") acodec in
  let bitrate := kwarg (PyStr "128k") bitrate in
  let acodec := py_or acodec (PyStr "flac") in
  StreamEncoder_open "flac" acodec bitrate.

Definition AacEncoder_open (acodec bitrate : option pyval) : open_call :=
  let acodec := kwarg (PyStr "aac") acodec in
  let bitrate := kwarg (PyStr "128k") bitrate in
  let acodec := py_or acodec (PyStr "acc") in
  StreamEncoder_open "aac" acodec bitrate.

End Encoders.

(** ** webui_utils.py *)

Module WebuiUtils.
Import Py.

(** *** The records handed to the handlers

    A field is [None] where the caller leaves the keyword out, so that the
    data class keeps its own default. *)

Inductive AudioFormat := mp3 | wav | ogg | flac | aac.

Record TTSConfig := mkTTSConfig {
  mid : pyval;
  style : option string;
  temperature : option pyval;
  top_k : option pyval;
  top_p : option pyval;
  prompt : option pyval;
  prefix : option pyval;
  prompt1 : option pyval;
  prompt2 : option pyval
}.

Record InferConfig := mkInferConfig {
  batch_size : Z;
  spliter_threshold : pyval;
  eos : pyval;
  seed : option Z;
  sync_gen : bool
}.

Record AdjustConfig := mkAdjustConfig {
  pitch : pyval;
  speed_rate : pyval;
  volume_gain_db : pyval;
  normalize : pyval;
  headroom : pyval
}.

Record EnhancerConfig := mkEnhancerConfig {
  enabled : bool;
  lambd : float
}.

Record EncoderConfig := mkEncoderConfig {
  format : AudioFormat;
  bitrate : string
}.

Record VCConfig := mkVCConfig { vc_enabled : bool }.

Record TTSHandler := mkTTSHandler {
  text_content : string;
  spk : pyval;
  tts_config : TTSConfig;
  infer_config : InferConfig;
  adjust_config : AdjustConfig;
  enhancer_config : EnhancerConfig;
  encoder_config : EncoderConfig;
  vc_config : VCConfig
}.

Record SSMLHandler := mkSSMLHandler {
  ssml_content : string;
  ssml_tts_config : TTSConfig;
  ssml_infer_config : InferConfig;
  ssml_adjust_config : AdjustConfig;
  ssml_enhancer_config : EnhancerConfig;
  ssml_encoder_config : EncoderConfig
}.

(** *** Segments of a parsed SSML document: a break, or a dict-like
    segment with its ["text"] and its other entries. *)
Inductive segment :=
| SSMLBreak (duration : Z)
| SSMLSegment (text : string) (attrs : gmap string pyval).

(** *** Effects: what a call leaves behind, and how it ends

    A computation appends to a trace the records it logs and the requests
    it enqueues on a handler, and ends with a value or with an exception. *)

Inductive event :=
| LogError (msg : string)         (* logger.error *)
| EnqueueTTS (h : TTSHandler)     (* TTSHandler(...).enqueue() *)
| EnqueueSSML (h : SSMLHandler).  (* SSMLHandler(...).enqueue() *)

Definition M (A : Type) : Type := list event -> list event * (exn + A).

Definition ret {A} (a : A) : M A := fun tr => (tr, inr a).

Definition bind {A B} (c : M A) (k : A -> M B) : M B :=
  fun tr =>
    match c tr with
    | (tr', inr a) => k a tr'
    | (tr', inl e) => (tr', inl e)
    end.

Definition raise {A} (e : exn) : M A := fun tr => (tr, inl e).

Definition emit (ev : event) : M unit := fun tr => ((tr ++ [ev])%list, inr tt).

(** [try: c  except Exception as e: h e] *)
Definition try_except {A} (c : M A) (h : exn -> M A) : M A :=
  fun tr =>
    match c tr with
    | (tr', inr a) => (tr', inr a)
    | (tr', inl e) => h e tr'
    end.

(** A call that returns or raises and leaves no trace of its own. *)
Definition lift {A} (r : exn + A) : M A := fun tr => (tr, r).

(** Running a computation from the empty trace. *)
Definition run {A} (c : M A) : list event * (exn + A) := c [].

Notation "'let*' x ':=' c 'in' k" := (bind c (fun x => k))
  (at level 10, x pattern, c at level 100, k at level 200).

(** *** The collaborators of the module

    Functions and settings of the repository that [webui_utils] imports:
    the configured limits, the style and speaker stores, the SSML parser,
    the handlers' [enqueue], the text normalizer and the refiner. *)
Class Externals := {
  audio : Type;
  tts_max : Z;                                         (* webui_config.tts_max *)
  ssml_max : Z;                                        (* webui_config.ssml_max *)
  int_of_str : string -> exn + Z;                      (* int(s) for a str *)
  calc_spk_style : pyval -> string -> gmap string pyval;
  create_speaker_from_seed : Z -> TTSSpeaker;
  from_file : pyval -> exn + TTSSpeaker;               (* TTSSpeaker.from_file *)
  encode_to_wav : Z * audio -> list Z;
  from_ref_wav_bytes : list Z -> string -> TTSSpeaker; (* TTSSpeaker.from_ref_wav_bytes *)
  ssml_parse : string -> exn + list segment;           (* create_ssml_v01_parser().parse *)
  tts_enqueue : TTSHandler -> exn + (Z * audio);
  ssml_enqueue : SSMLHandler -> exn + (Z * audio);
  audio_to_int16 : audio -> audio;
  tn_normalize : string -> list string -> string;      (* ChatTtsTN.normalize *)
  refiner_refine_text : string -> string -> pyval -> string
}.

(** The float literals of the module, as the doubles Python reads them. *)
Definition float_0_1 : float := 0x1.999999999999ap-4.    (* 0.1 *)
Definition float_0_9 : float := 0x1.ccccccccccccdp-1.    (* 0.9 *)
Definition float_1e_9 : float := 0x1.12e0be826d695p-30.  (* 0.000000001 *)

Section Functions.
Context `{Externals}.

(** [int(v)] *)
Definition py_int (v : pyval) : exn + Z :=
  match v with
  | PyInt z => inr z
  | PyBool b => inr (if b then 1 else 0)
  | PyFloat f => int_of_f64 (f64_of_float f)
  | PyStr s => int_of_str s
  | PyNone | PySpk _ =>
      inl (TypeError "int() argument must be a string or a real number")
  end.

Definition nl : string := String (ascii_of_nat 10) EmptyString.

Definition load_spk_info (file : pyval) : M string :=
  match file with
  | PyNone => ret "empty"
  | _ =>
      try_except
        (let* spk := lift (from_file file) in
         ret (strip (nl ++ "- name: " ++ spk_name spk ++ nl
                     ++ "- gender: " ++ spk_gender spk ++ nl
                     ++ "- describe: " ++ spk_desc spk ++ nl ++ "    ")))
        (fun e =>
           let* _ := emit (LogError ("load spk info failed: " ++ exn_str e)) in
           ret "load failed")
  end.

(** The loop of [segments_length_limit], with its two variables. *)
Fixpoint limit_loop (segments : list segment) (total_max : Z)
    (ret_segments : list segment) (total_len : Z) : list segment :=
  match segments with
  | [] => ret_segments
  | seg :: rest =>
      match seg with
      | SSMLBreak _ =>
          limit_loop rest total_max (ret_segments ++ [seg])%list total_len
      | SSMLSegment text _ =>
          let total_len := total_len + len text in
          if total_len >? total_max then ret_segments
          else limit_loop rest total_max (ret_segments ++ [seg])%list total_len
      end
  end.

Definition segments_length_limit (segments : list segment) (total_max : Z)
    : list segment :=
  limit_loop segments total_max [] 0.

(** The arguments of [synthesize_ssml]. *)
Record ssml_args := mkSsmlArgs {
  sarg_ssml : string;
  sarg_batch_size : pyval;
  sarg_enable_enhance : bool;
  sarg_enable_denoise : bool;
  sarg_eos : pyval;
  sarg_spliter_thr : pyval;
  sarg_pitch : pyval;
  sarg_speed_rate : pyval;
  sarg_volume_gain_db : pyval;
  sarg_normalize : pyval;
  sarg_headroom : pyval
}.

Definition synthesize_ssml (a : ssml_args) : M (Z * audio) :=
  let* batch_size :=
    try_except (lift (py_int (sarg_batch_size a))) (fun _ => ret 8) in
  let ssml := strip (sarg_ssml a) in
  let* _ := if String.eqb ssml ""
            then raise (GrError "SSML is empty, please input some SSML")
            else ret tt in
  let* segments := lift (ssml_parse ssml) in
  let max_len := ssml_max in
  let segments := segments_length_limit segments max_len in
  let* _ := if Z.of_nat (List.length segments) =? 0
            then raise (GrError "No valid segments in SSML")
            else ret tt in
  let infer_config :=
    {| batch_size := batch_size;
       spliter_threshold := sarg_spliter_thr a;
       eos := sarg_eos a;
       seed := None;
       sync_gen := true |} in
  let adjust_config :=
    {| pitch := sarg_pitch a;
       speed_rate := sarg_speed_rate a;
       volume_gain_db := sarg_volume_gain_db a;
       normalize := sarg_normalize a;
       headroom := sarg_headroom a |} in
  let enhancer_config :=
    {| enabled := sarg_enable_denoise a || sarg_enable_enhance a || false;
       lambd := if sarg_enable_denoise a then float_0_9 else float_0_1 |} in
  let encoder_config := {| format := mp3; bitrate := "64k" |} in
  let tts_config :=
    {| mid := PyStr "chat-tts"; style := None; temperature := None;
       top_k := None; top_p := None; prompt := None; prefix := None;
       prompt1 := None; prompt2 := None |} in
  let handler :=
    {| ssml_content := ssml;
       ssml_tts_config := tts_config;
       ssml_infer_config := infer_config;
       ssml_adjust_config := adjust_config;
       ssml_enhancer_config := enhancer_config;
       ssml_encoder_config := encoder_config |} in
  let* _ := emit (EnqueueSSML handler) in
  let* result := lift (ssml_enqueue handler) in
  let (sample_rate, audio_data) := result in
  let audio_data := audio_to_int16 audio_data in
  ret (sample_rate, audio_data).

(** The arguments of [tts_generate]. *)
Record tts_args := mkTtsArgs {
  arg_text : string;
  arg_temperature : pyval;
  arg_top_p : pyval;
  arg_top_k : pyval;
  arg_spk : pyval;
  arg_infer_seed : pyval;
  arg_use_decoder : pyval;
  arg_prompt1 : pyval;
  arg_prompt2 : pyval;
  arg_prefix : pyval;
  arg_style : string;
  arg_disable_normalize : pyval;
  arg_batch_size : pyval;
  arg_enable_enhance : bool;
  arg_enable_denoise : bool;
  arg_spk_file : pyval;
  arg_spliter_thr : pyval;
  arg_eos : pyval;
  arg_pitch : pyval;
  arg_speed_rate : pyval;
  arg_volume_gain_db : pyval;
  arg_normalize : pyval;
  arg_headroom : pyval;
  arg_ref_audio : option (Z * audio);
  arg_ref_audio_text : option string;
  arg_model_id : pyval
}.

(** [tts_generate]. The [print] calls, the timer and the [progress] argument
    leave nothing in what the function returns or hands to the handler, and
    are left out. *)
Definition tts_generate (a : tts_args) : M (Z * audio) :=
  let* batch_size :=
    try_except (lift (py_int (arg_batch_size a))) (fun _ => ret 4) in
  let max_len := tts_max in
  let text := slice_to (strip (arg_text a)) max_len in
  let* _ := if String.eqb text ""
            then raise (GrError "Text is empty, please input some text")
            else ret tt in
  let style := if String.eqb (arg_style a) "*auto" then "" else arg_style a in
  let* top_k :=
    match arg_top_k a with
    | PyFloat f => let* k := lift (int_of_f64 (f64_of_float f)) in ret (PyInt k)
    | k => ret k
    end in
  let params := calc_spk_style (arg_spk a) style in
  let spk := dict_get params "spk" (arg_spk a) in
  let infer_seed :=
    py_or (arg_infer_seed a) (dict_get params "seed" (arg_infer_seed a)) in
  let temperature :=
    py_or (arg_temperature a) (dict_get params "temperature" (arg_temperature a)) in
  let prefix := py_or (arg_prefix a) (dict_get params "prefix" (PyStr "")) in
  let prompt := dict_get params "prompt" (PyStr "") in
  let prompt1 := py_or (arg_prompt1 a) (dict_get params "prompt1" (PyStr "")) in
  let prompt2 := py_or (arg_prompt2 a) (dict_get params "prompt2" (PyStr "")) in
  let* infer_seed := lift (np_clip_float64 infer_seed (-1) (2 ^ 32 - 1)) in
  let* infer_seed := lift (int_of_f64 infer_seed) in
  let min_n := float_1e_9 in
  let temperature :=
    if py_eq_float temperature float_0_1 then PyFloat min_n else temperature in
  let spk :=
    match as_int spk with
    | Some n => PySpk (create_speaker_from_seed n)
    | None => spk
    end in
  let* spk :=
    if truthy (arg_spk_file a)
    then try_except
           (let* s := lift (from_file (arg_spk_file a)) in ret (PySpk s))
           (fun _ => raise (GrError "Failed to load speaker file"))
    else ret spk in
  let* spk :=
    match arg_ref_audio a with
    | Some ref_audio =>
        let* ref_audio_text :=
          match arg_ref_audio_text a with
          | None => raise (GrError "ref_audio_text is empty")
          | Some t =>
              if String.eqb (strip t) ""
              then raise (GrError "ref_audio_text is empty")
              else ret t
          end in
        let ref_audio_bytes := encode_to_wav ref_audio in
        ret (PySpk (from_ref_wav_bytes ref_audio_bytes ref_audio_text))
    | None => ret spk
    end in
  let tts_config :=
    {| mid := arg_model_id a;
       style := Some style;
       temperature := Some temperature;
       top_k := Some top_k;
       top_p := Some (arg_top_p a);
       prompt := Some prompt;
       prefix := Some prefix;
       prompt1 := Some prompt1;
       prompt2 := Some prompt2 |} in
  let infer_config :=
    {| batch_size := batch_size;
       spliter_threshold := arg_spliter_thr a;
       eos := arg_eos a;
       seed := Some infer_seed;
       sync_gen := true |} in
  let adjust_config :=
    {| pitch := arg_pitch a;
       speed_rate := arg_speed_rate a;
       volume_gain_db := arg_volume_gain_db a;
       normalize := arg_normalize a;
       headroom := arg_headroom a |} in
  let enhancer_config :=
    {| enabled := arg_enable_denoise a || arg_enable_enhance a || false;
       lambd := if arg_enable_denoise a then float_0_9 else float_0_1 |} in
  let encoder_config := {| format := mp3; bitrate := "64k" |} in
  let handler :=
    {| text_content := text;
       spk := spk;
       tts_config := tts_config;
       infer_config := infer_config;
       adjust_config := adjust_config;
       enhancer_config := enhancer_config;
       encoder_config := encoder_config;
       vc_config := {| vc_enabled := false |} |} in
  let* _ := emit (EnqueueTTS handler) in
  let* result := lift (tts_enqueue handler) in
  let (sample_rate, audio_data) := result in
  let audio_data := audio_to_int16 audio_data in
  ret (sample_rate, audio_data).

Definition text_normalize (text : string) : string :=
  tn_normalize text ["replace_unk_tokens"].

(** The list [prompt] that [refine_text] fills. *)
Definition refine_prompt (oral speed rf_break laugh : Z) : list string :=
  let prompt := [] in
  let prompt :=
    if negb (oral =? -1)
    then (prompt ++ [("[oral_" ++ str_of_int oral ++ "]")%string])%list else prompt in
  let prompt :=
    if negb (speed =? -1)
    then (prompt ++ [("[speed_" ++ str_of_int speed ++ "]")%string])%list else prompt in
  let prompt :=
    if negb (rf_break =? -1)
    then (prompt ++ [("[break_" ++ str_of_int rf_break ++ "]")%string])%list else prompt in
  let prompt :=
    if negb (laugh =? -1)
    then (prompt ++ [("[laugh_" ++ str_of_int laugh ++ "]")%string])%list else prompt in
  prompt.

Definition refine_text (text : string) (oral speed rf_break laugh : Z)
    (spliter_threshold : pyval) : string :=
  let text := text_normalize text in
  let prompt := refine_prompt oral speed rf_break laugh in
  refiner_refine_text text (join prompt) spliter_threshold.

End Functions.

(** *** The functions that read the stores and split long texts *)

(** The speaker and style stores and the sentence splitter, which the
    module imports. *)
Class Stores := {
  style_item : Type;
  list_speakers : list TTSSpeaker;                   (* spk_mgr.list_speakers() *)
  list_items : list style_item;                      (* styles_mgr.list_items() *)
  splitter_parse : pyval -> string -> list string;   (* SentenceSplitter(threshold).parse *)
  splitter_len : pyval -> string -> Z                (* SentenceSplitter(threshold).len *)
}.

Section Listings.
Context `{Externals} `{Stores}.

Definition get_speakers (filter : option (TTSSpeaker -> bool)) : list TTSSpeaker :=
  let spks := list_speakers in
  match filter with
  | Some f => List.filter f spks
  | None => spks
  end.

Definition get_speaker_show_name (spk : TTSSpeaker) : string :=
  if String.eqb (spk_gender spk) "*" || String.eqb (spk_gender spk) ""
  then spk_name spk
  else spk_gender spk ++ " : " ++ spk_name spk.

(** [lambda x: x.startswith("*") and "-1" or x] *)
Definition speaker_name_key (x : string) : string :=
  if startswith x "*" then "-1" else x.

Definition get_speaker_names (filter : option (TTSSpeaker -> bool))
    : list TTSSpeaker * list string :=
  let speakers := get_speakers filter in
  let speaker_names := List.map get_speaker_show_name speakers in
  let speaker_names := sort_by_key speaker_name_key speaker_names in
  (speakers, speaker_names).

Definition get_styles : list style_item := list_items.

(** The loop of [split_long_text] over [enumerate(sentences)], from the
    index [i] on. *)
Fixpoint split_rows (spliter_threshold : pyval) (i : Z) (sentences : list string)
    : list (Z * string * Z) :=
  match sentences with
  | [] => []
  | text :: rest =>
      let token_length := splitter_len spliter_threshold text in
      (i, text, token_length) :: split_rows spliter_threshold (i + 1) rest
  end.

Definition split_long_text (long_text_input : string) (spliter_threshold : pyval)
    (eos : string) : list (Z * string * Z) :=
  let sentences := splitter_parse spliter_threshold long_text_input in
  let sentences := List.map (fun s => text_normalize s ++ eos) sentences in
  split_rows spliter_threshold 0 sentences.

End Listings.

End WebuiUtils.

(** ** Measures and views used by the statements *)

Module Views.
Import Py WebuiUtils.

(** The summed length of the texts of the [SSMLSegment]s of a list. *)
Fixpoint text_len (l : list segment) : Z :=
  match l with
  | [] => 0
  | SSMLBreak _ :: l' => text_len l'
  | SSMLSegment t _ :: l' => len t + text_len l'
  end.

(** The intermediate values of [tts_generate], read off its lines;
    [tts_generate_stages] proves that these are the values the function
    computes. *)
Section Stages.
Context `{Externals}.
Variable a : tts_args.

(** [text.strip()[0:max_len]] *)
Definition request_text : string := slice_to (strip (arg_text a)) tts_max.

(** [style], with ["*auto"] read as no style. *)
Definition eff_style : string :=
  if String.eqb (arg_style a) "*auto" then "" else arg_style a.

(** [params = calc_spk_style(spk=spk, style=style)] *)
Definition style_params : gmap string pyval :=
  calc_spk_style (arg_spk a) (eff_style).

(** [batch_size], after the [try: int(batch_size)]. *)
Definition eff_batch_size : Z :=
  match py_int (arg_batch_size a) with inr n => n | inl _ => 4 end.

(** [top_k], after [if isinstance(top_k, float): top_k = int(top_k)]. *)
Definition eff_top_k : exn + pyval :=
  match arg_top_k a with
  | PyFloat f =>
      match int_of_f64 (f64_of_float f) with
      | inr k => inr (PyInt k)
      | inl e => inl e
      end
  | k => inr k
  end.

(** The five coalesced parameters, before the seed is clamped and the
    temperature is adjusted. *)
Definition coalesced_seed : pyval :=
  py_or (arg_infer_seed a) (dict_get style_params "seed" (arg_infer_seed a)).
Definition coalesced_temperature : pyval :=
  py_or (arg_temperature a)
        (dict_get style_params "temperature" (arg_temperature a)).
Definition coalesced_prefix : pyval :=
  py_or (arg_prefix a) (dict_get style_params "prefix" (PyStr "")).
Definition coalesced_prompt1 : pyval :=
  py_or (arg_prompt1 a) (dict_get style_params "prompt1" (PyStr "")).
Definition coalesced_prompt2 : pyval :=
  py_or (arg_prompt2 a) (dict_get style_params "prompt2" (PyStr "")).

(** The bounds of the seed, as binary64 values. *)
Definition seed_lo : f64 := F64_fin (-1) 0.
Definition seed_hi : f64 := F64_fin (2 ^ 32 - 1) 0.

(** [int(np.clip(infer_seed, -1, 2**32 - 1, out=None, dtype=np.float64))] *)
Definition clamp_seed (infer_seed : pyval) : exn + Z :=
  match np_clip_float64 infer_seed (-1) (2 ^ 32 - 1) with
  | inr x => int_of_f64 x
  | inl e => inl e
  end.

(** [temperature], after [if temperature == 0.1: temperature = min_n]. *)
Definition adjust_temperature (temperature : pyval) : pyval :=
  if py_eq_float temperature float_0_1 then PyFloat float_1e_9 else temperature.

(** The speaker before a speaker file or a reference audio replaces it. *)
Definition seed_speaker : pyval :=
  let spk := dict_get style_params "spk" (arg_spk a) in
  match as_int spk with
  | Some n => PySpk (create_speaker_from_seed n)
  | None => spk
  end.

(** The speaker of a request that gets through the speaker-file and the
    reference-audio checks. *)
Definition speaker_of (speaker : pyval) : Prop :=
  (truthy (arg_spk_file a) = true ->
     exists s, from_file (arg_spk_file a) = inr s) /\
  match arg_ref_audio a with
  | Some ref_audio =>
      exists t, arg_ref_audio_text a = Some t /\
        String.eqb (strip t) "" = false /\
        speaker = PySpk (from_ref_wav_bytes (encode_to_wav ref_audio) t)
  | None =>
      if truthy (arg_spk_file a)
      then exists s, from_file (arg_spk_file a) = inr s /\ speaker = PySpk s
      else speaker = seed_speaker
  end.

(** [ref_audio_text is None or ref_audio_text.strip() == ""] *)
Definition transcript_blank (ref_audio_text : option string) : bool :=
  match ref_audio_text with
  | None => true
  | Some t => String.eqb (strip t) ""
  end.

(** The checks in front of the speaker file pass: the text is not empty,
    [top_k] converts and the seed clamps. *)
Definition reaches_speaker_check : Prop :=
  String.eqb request_text "" = false /\
  (exists top_k, eff_top_k = inr top_k) /\
  (exists infer_seed, clamp_seed coalesced_seed = inr infer_seed).

(** The checks in front of the reference audio pass: those above, and the
    speaker file, when there is one, loads. *)
Definition reaches_reference_check : Prop :=
  reaches_speaker_check /\
  (truthy (arg_spk_file a) = true ->
     exists s, from_file (arg_spk_file a) = inr s).

(** The checks of the call, one by one, in the order of the code: the text
    is not empty after the cut, [top_k] converts, the seed clamps, and the
    speaker file, when there is one, loads while the reference audio, when
    there is one, comes with a transcript that is not blank. *)
Definition text_given : Prop := String.eqb request_text "" = false.

Definition top_k_converts : Prop := exists top_k, eff_top_k = inr top_k.

Definition seed_clamps : Prop :=
  exists infer_seed, clamp_seed coalesced_seed = inr infer_seed.

Definition speaker_accepted : Prop :=
  (truthy (arg_spk_file a) = true ->
     exists s, from_file (arg_spk_file a) = inr s) /\
  match arg_ref_audio a with
  | Some _ => transcript_blank (arg_ref_audio_text a) = false
  | None => True
  end.

(** The handler built at the end, from the values of the earlier lines. *)
Definition tts_handler (top_k : pyval) (infer_seed : Z) (speaker : pyval)
    : TTSHandler :=
  {| text_content := request_text;
     spk := speaker;
     tts_config :=
       {| mid := arg_model_id a;
          style := Some eff_style;
          temperature := Some (adjust_temperature coalesced_temperature);
          top_k := Some top_k;
          top_p := Some (arg_top_p a);
          prompt := Some (dict_get style_params "prompt" (PyStr ""));
          prefix := Some coalesced_prefix;
          prompt1 := Some coalesced_prompt1;
          prompt2 := Some coalesced_prompt2 |};
     infer_config :=
       {| batch_size := eff_batch_size;
          spliter_threshold := arg_spliter_thr a;
          eos := arg_eos a;
          seed := Some infer_seed;
          sync_gen := true |};
     adjust_config :=
       {| pitch := arg_pitch a;
          speed_rate := arg_speed_rate a;
          volume_gain_db := arg_volume_gain_db a;
          normalize := arg_normalize a;
          headroom := arg_headroom a |};
     enhancer_config :=
       {| enabled := arg_enable_denoise a || arg_enable_enhance a || false;
          lambd := if arg_enable_denoise a then float_0_9 else float_0_1 |};
     encoder_config := {| format := mp3; bitrate := "64k" |};
     vc_config := {| vc_enabled := false |} |}.

(** [handler.enqueue()] and the lines after it. *)
Definition enqueue_and_convert (h : TTSHandler) : list event * (exn + Z * audio) :=
  ([EnqueueTTS h],
   match tts_enqueue h with
   | inr (sample_rate, audio_data) => inr (sample_rate, audio_to_int16 audio_data)
   | inl e => inl e
   end).

End Stages.

(** The request of [synthesize_ssml], read off its lines;
    [synthesize_ssml_stages] proves that it is the one the function
    enqueues. *)
Section SsmlStages.
Context `{Externals}.
Variable a : ssml_args.

Definition ssml_handler : SSMLHandler :=
  {| ssml_content := strip (sarg_ssml a);
     ssml_tts_config :=
       {| mid := PyStr "chat-tts"; style := None; temperature := None;
          top_k := None; top_p := None; prompt := None; prefix := None;
          prompt1 := None; prompt2 := None |};
     ssml_infer_config :=
       {| batch_size :=
            match py_int (sarg_batch_size a) with inr n => n | inl _ => 8 end;
          spliter_threshold := sarg_spliter_thr a;
          eos := sarg_eos a;
          seed := None;
          sync_gen := true |};
     ssml_adjust_config :=
       {| pitch := sarg_pitch a;
          speed_rate := sarg_speed_rate a;
          volume_gain_db := sarg_volume_gain_db a;
          normalize := sarg_normalize a;
          headroom := sarg_headroom a |};
     ssml_enhancer_config :=
       {| enabled := sarg_enable_denoise a || sarg_enable_enhance a || false;
          lambd := if sarg_enable_denoise a then float_0_9 else float_0_1 |};
     ssml_encoder_config := {| format := mp3; bitrate := "64k" |} |}.

(** The checks of [synthesize_ssml] pass: the stripped SSML is not empty,
    the parser accepts it, and the first segment is a break or a text
    within [webui_config.ssml_max], so that [segments_length_limit] keeps a
    segment. *)
Definition ssml_accepted : Prop :=
  strip (sarg_ssml a) <> "" /\
  exists seg rest,
    ssml_parse (strip (sarg_ssml a)) = inr (seg :: rest) /\
    (forall t attrs, seg = SSMLSegment t attrs -> len t <= ssml_max).

(** [handler.enqueue()] and the lines after it. *)
Definition ssml_enqueue_and_convert : list event * (exn + Z * audio) :=
  ([EnqueueSSML ssml_handler],
   match ssml_enqueue ssml_handler with
   | inr (sample_rate, audio_data) => inr (sample_rate, audio_to_int16 audio_data)
   | inl e => inl e
   end).

End SsmlStages.

End Views.

(** ** Sample data for concrete runs *)

Module Samples.
Import Py WebuiUtils Views.

Definition a_speaker (name : string) : TTSSpeaker :=
  {| spk_name := name; spk_gender := "*"; spk_desc := ""; spk_emb := [] |}.

(** Collaborators for concrete runs: [limit] is [webui_config.tts_max], the
    style store answers every lookup with [params], a speaker file loads
    when its path is ["ok.json"], and the handler returns one second of
    silence at 24 kHz. *)
Definition sample_externals (limit : Z) (params : gmap string pyval) : Externals :=
  {| audio := list Z;
     tts_max := limit;
     ssml_max := 5000;
     int_of_str := fun _ => inl (ValueError "invalid literal for int()");
     calc_spk_style := fun _ _ => params;
     create_speaker_from_seed := fun n => a_speaker ("seed_" ++ str_of_int n);
     from_file := fun f =>
       match f with
       | PyStr "ok.json" => inr (a_speaker "from_file")
       | _ => inl (OtherException "No such file")
       end;
     encode_to_wav := fun r => [fst r];
     from_ref_wav_bytes := fun b t => a_speaker ("ref:" ++ t);
     ssml_parse := fun s => inr [SSMLSegment s ∅];
     tts_enqueue := fun _ => inr (24000, []);
     ssml_enqueue := fun _ => inr (24000, []);
     audio_to_int16 := fun x => x;
     tn_normalize := fun t _ => t;
     refiner_refine_text := fun t p _ => (p ++ t)%string |}.

(** [tts_generate(text, temperature=.., spk_file=.., ref_audio=..,
    ref_audio_text=..)], every other argument at the default of the
    signature. *)
Definition tts_call `{Externals} (text : string) (temperature spk_file : pyval)
    (ref_audio : option (Z * audio)) (ref_audio_text : option string)
    : tts_args :=
  {| arg_text := text;
     arg_temperature := temperature;
     arg_top_p := PyFloat 0x1.6666666666666p-1;         (* 0.7 *)
     arg_top_k := PyInt 20;
     arg_spk := PyInt (-1);
     arg_infer_seed := PyInt (-1);
     arg_use_decoder := PyBool true;
     arg_prompt1 := PyStr "";
     arg_prompt2 := PyStr "";
     arg_prefix := PyStr "";
     arg_style := "";
     arg_disable_normalize := PyBool false;
     arg_batch_size := PyInt 4;
     arg_enable_enhance := false;
     arg_enable_denoise := false;
     arg_spk_file := spk_file;
     arg_spliter_thr := PyInt 100;
     arg_eos := PyStr "[uv_break]";
     arg_pitch := PyInt 0;
     arg_speed_rate := PyInt 1;
     arg_volume_gain_db := PyInt 0;
     arg_normalize := PyBool true;
     arg_headroom := PyInt 1;
     arg_ref_audio := ref_audio;
     arg_ref_audio_text := ref_audio_text;
     arg_model_id := PyStr "chat-tts" |}.

(** The default of [temperature]. *)
Definition float_0_3 : float := 0x1.3333333333333p-2.  (* 0.3 *)
Definition float_0_5 : float := 0x1p-1.                (* 0.5 *)

(** [tts_generate(text, infer_seed=.., enable_enhance=..,
    enable_denoise=..)], every other argument at the default of the
    signature. *)
Definition tts_call_with `{Externals} (text : string) (infer_seed : pyval)
    (enable_enhance enable_denoise : bool) : tts_args :=
  {| arg_text := text;
     arg_temperature := PyFloat float_0_3;
     arg_top_p := PyFloat 0x1.6666666666666p-1;         (* 0.7 *)
     arg_top_k := PyInt 20;
     arg_spk := PyInt (-1);
     arg_infer_seed := infer_seed;
     arg_use_decoder := PyBool true;
     arg_prompt1 := PyStr "";
     arg_prompt2 := PyStr "";
     arg_prefix := PyStr "";
     arg_style := "";
     arg_disable_normalize := PyBool false;
     arg_batch_size := PyInt 4;
     arg_enable_enhance := enable_enhance;
     arg_enable_denoise := enable_denoise;
     arg_spk_file := PyNone;
     arg_spliter_thr := PyInt 100;
     arg_eos := PyStr "[uv_break]";
     arg_pitch := PyInt 0;
     arg_speed_rate := PyInt 1;
     arg_volume_gain_db := PyInt 0;
     arg_normalize := PyBool true;
     arg_headroom := PyInt 1;
     arg_ref_audio := None;
     arg_ref_audio_text := None;
     arg_model_id := PyStr "chat-tts" |}.

(** [synthesize_ssml(ssml, enable_enhance=.., enable_denoise=..)], every
    other argument at the default of the signature. *)
Definition ssml_call_with (ssml : string) (enable_enhance enable_denoise : bool)
    : ssml_args :=
  {| sarg_ssml := ssml;
     sarg_batch_size := PyInt 4;
     sarg_enable_enhance := enable_enhance;
     sarg_enable_denoise := enable_denoise;
     sarg_eos := PyStr "[uv_break]";
     sarg_spliter_thr := PyInt 100;
     sarg_pitch := PyInt 0;
     sarg_speed_rate := PyInt 1;
     sarg_volume_gain_db := PyInt 0;
     sarg_normalize := PyBool true;
     sarg_headroom := PyInt 1 |}.

(** [tts_generate(text)] *)
Definition tts_defaults `{Externals} (text : string) : tts_args :=
  tts_call text (PyFloat float_0_3) PyNone None None.

(** A store whose style sets the seed [42] and the temperature [0.5], and
    one with no style. *)
Definition styled : Externals :=
  sample_externals 1000 {[ "seed" := PyInt 42; "temperature" := PyFloat float_0_5 ]}.
Definition unstyled : Externals := sample_externals 1000 ∅.

(** The request of [tts_generate("hello")] under [styled]. *)
Definition styled_request : TTSHandler :=
  tts_handler (H := styled) (tts_defaults "hello") (PyInt 20) (-1)
    (PySpk (a_speaker "seed_-1")).

(** The request of [tts_generate("hello", temperature=0.1)] with no style. *)
Definition tenth_request : TTSHandler :=
  tts_handler (H := unstyled)
    (tts_call "hello" (PyFloat float_0_1) PyNone None None) (PyInt 20) (-1)
    (PySpk (a_speaker "seed_-1")).

(** A reference audio: two samples at 16 kHz. *)
Definition a_clip : Z * @audio unstyled := (16000, [0; 1] : list Z).

(** The request of [tts_generate("  hello  ")] under the limit [3]. *)
Definition cut_request : TTSHandler :=
  tts_handler (H := sample_externals 3 ∅) (tts_defaults "  hello  ")
    (PyInt 20) (-1) (PySpk (a_speaker "seed_-1")).

(** A store whose limit on the text is [0]. *)
Definition zero_limit : Externals := sample_externals 0 ∅.

(** A speaker store with two starred names, and a splitter that cuts a
    text at its first five characters and measures in characters. *)
Definition sample_stores : Stores :=
  {| style_item := string;
     list_speakers :=
       [ mkSpeaker "zed" "male" "" [];
         mkSpeaker "*amy" "*" "" [];
         mkSpeaker "bob" "" "" [];
         mkSpeaker "*al" "*" "" [];
         mkSpeaker "eve" "female" "" [] ];
     list_items := ["chat"; "podcast"];
     splitter_parse := fun _ s =>
       [String.substring 0 5 s; String.substring 5 (String.length s - 5) s];
     splitter_len := fun _ s => len s |}.

End Samples.

Import Py Encoders WebuiUtils Views Samples.

(** * Properties *)

(** ** Stream encoders *)

Section EncoderDefaults.
Variables (acodec : pyval) (bitrate : option pyval).
Hypothesis unset : truthy acodec = false.

Lemma Mp3Encoder_default_codec :
  oc_acodec (Mp3Encoder_open (Some acodec) bitrate) = PyStr "libmp3lame".
Proof. unfold Mp3Encoder_open, py_or; simpl. now rewrite unset. Qed.

Lemma WavEncoder_default_codec :
  oc_acodec (WavEncoder_open (Some acodec) bitrate) = PyStr "pcm_s16le".
Proof. unfold WavEncoder_open, py_or; simpl. now rewrite unset. Qed.

Lemma OggEncoder_default_codec :
  oc_acodec (OggEncoder_open (Some acodec) bitrate) = PyStr "libvorbis".
Proof. unfold OggEncoder_open, py_or; simpl. now rewrite unset. Qed.

Lemma FlacEncoder_default_codec :
  oc_acodec (FlacEncoder_open (Some acodec) bitrate) = PyStr "flac".
Proof. unfold FlacEncoder_open, py_or; simpl. now rewrite unset. Qed.

(** The AAC encoder falls back to the codec name it spells ["acc"]. *)
Lemma AacEncoder_fallback_codec :
  oc_acodec (AacEncoder_open (Some acodec) bitrate) = PyStr "acc".
Proof. unfold AacEncoder_open, py_or; simpl. now rewrite unset. Qed.

End EncoderDefaults.

(** With the codec left out of the call, every encoder opens with the
    default of its signature, and the bit rate is ["128k"] unless given. *)
Lemma encoders_omitted_arguments :
  Mp3Encoder_open None None = mkOpen "mp3" (PyStr "libmp3lame") (PyStr "128k") /\
  WavEncoder_open None None = mkOpen "wav" (PyStr "pcm_s16le") (PyStr "128k") /\
  OggEncoder_open None None = mkOpen "ogg" (PyStr "libvorbis") (PyStr "128k") /\
  FlacEncoder_open None None = mkOpen "flac" (PyStr "flac") (PyStr "128k") /\
  AacEncoder_open None None = mkOpen "aac" (PyStr "aac") (PyStr "128k").
Proof. repeat split. Qed.

Lemma encoders_bitrate (acodec : option pyval) (b : pyval) :
  oc_bitrate (Mp3Encoder_open acodec (Some b)) = b /\
  oc_bitrate (WavEncoder_open acodec (Some b)) = b /\
  oc_bitrate (OggEncoder_open acodec (Some b)) = b /\
  oc_bitrate (FlacEncoder_open acodec (Some b)) = b /\
  oc_bitrate (AacEncoder_open acodec (Some b)) = b /\
  oc_bitrate (Mp3Encoder_open acodec None) = PyStr "128k" /\
  oc_bitrate (WavEncoder_open acodec None) = PyStr "128k" /\
  oc_bitrate (OggEncoder_open acodec None) = PyStr "128k" /\
  oc_bitrate (FlacEncoder_open acodec None) = PyStr "128k" /\
  oc_bitrate (AacEncoder_open acodec None) = PyStr "128k".
Proof. repeat split. Qed.

(** C3, at the failing input: [AacEncoder().open(acodec=None)] and
    [AacEncoder().open(acodec="")] hand the codec ["acc"] to
    [StreamEncoder.open], not ["aac"], while the bit rate is ["128k"]. *)
Theorem AacEncoder_open_unset_codec :
  AacEncoder_open (Some PyNone) None = mkOpen "aac" (PyStr "acc") (PyStr "128k") /\
  AacEncoder_open (Some (PyStr "")) None = mkOpen "aac" (PyStr "acc") (PyStr "128k") /\
  oc_acodec (AacEncoder_open (Some PyNone) None) <> PyStr "aac".
Proof. repeat split. discriminate. Qed.

(** ** Strings *)

Lemma append_cons (c : ascii) (s t : string) :
  (String c s ++ t)%string = String c (s ++ t).
Proof. reflexivity. Qed.

Lemma append_empty_r (s : string) : (s ++ "")%string = s.
Proof.
  induction s as [| c s IH]; [reflexivity |]. now rewrite append_cons, IH.
Qed.

Lemma append_assoc (s1 s2 s3 : string) :
  ((s1 ++ s2) ++ s3)%string = (s1 ++ (s2 ++ s3))%string.
Proof.
  induction s1 as [| c s1 IH]; [reflexivity |]. now rewrite !append_cons, IH.
Qed.

(** ** refine_text *)

(** The appends of [refine_text], one optional token after the other. *)
Lemma refine_prompt_in_order (oral speed rf_break laugh : Z) :
  refine_prompt oral speed rf_break laugh =
    ((if oral =? -1 then [] else [("[oral_" ++ str_of_int oral ++ "]")%string]) ++
     (if speed =? -1 then [] else [("[speed_" ++ str_of_int speed ++ "]")%string]) ++
     (if rf_break =? -1 then [] else [("[break_" ++ str_of_int rf_break ++ "]")%string]) ++
     (if laugh =? -1 then [] else [("[laugh_" ++ str_of_int laugh ++ "]")%string]))%list.
Proof.
  unfold refine_prompt.
  destruct (oral =? -1), (speed =? -1), (rf_break =? -1), (laugh =? -1);
    reflexivity.
Qed.

Ltac token_cases H :=
  rewrite !in_app_iff in H;
  repeat match type of H with
         | context [if ?x =? -1 then _ else _] => destruct (Z.eqb_spec x (-1))
         end;
  simpl In in H;
  repeat match goal with
         | H' : _ \/ _ |- _ => destruct H' as [H' | H']
         | H' : False |- _ => destruct H'
         | H' : (_ ++ _)%string = (_ ++ _)%string |- _ =>
             rewrite !append_cons in H'; discriminate H'
         end.

(** C8: the prompt handed to the refiner is the concatenation, in the order
    oral, speed, break, laugh, of the tokens of the directives that are not
    [-1], and each token is in the prompt exactly when its directive is not
    [-1]. *)
Theorem refine_text_prompt `{Externals} (text : string)
    (oral speed rf_break laugh : Z) (spliter_threshold : pyval) :
  let prompt := refine_prompt oral speed rf_break laugh in
  refine_text text oral speed rf_break laugh spliter_threshold =
    refiner_refine_text (text_normalize text) (join prompt) spliter_threshold /\
  join prompt =
    ((if (oral =? -1)%Z then "" else "[oral_" ++ str_of_int oral ++ "]") ++
     (if (speed =? -1)%Z then "" else "[speed_" ++ str_of_int speed ++ "]") ++
     (if (rf_break =? -1)%Z then "" else "[break_" ++ str_of_int rf_break ++ "]") ++
     (if (laugh =? -1)%Z then "" else "[laugh_" ++ str_of_int laugh ++ "]"))%string /\
  (In ("[oral_" ++ str_of_int oral ++ "]")%string prompt <-> oral <> -1) /\
  (In ("[speed_" ++ str_of_int speed ++ "]")%string prompt <-> speed <> -1) /\
  (In ("[break_" ++ str_of_int rf_break ++ "]")%string prompt <-> rf_break <> -1) /\
  (In ("[laugh_" ++ str_of_int laugh ++ "]")%string prompt <-> laugh <> -1).
Proof.
  cbv zeta. split; [reflexivity |]. rewrite refine_prompt_in_order.
  split.
  { destruct (oral =? -1), (speed =? -1), (rf_break =? -1), (laugh =? -1);
      cbn [join fold_right app]; rewrite ?append_empty_r, ?append_assoc;
      reflexivity. }
  repeat split; intros Hx.
  all: try (intros Heq; token_cases Hx; congruence).
  all: rewrite !in_app_iff.
  - left. destruct (Z.eqb_spec oral (-1)); [contradiction | now left].
  - right; left. destruct (Z.eqb_spec speed (-1)); [contradiction | now left].
  - right; right; left.
    destruct (Z.eqb_spec rf_break (-1)); [contradiction | now left].
  - right; right; right.
    destruct (Z.eqb_spec laugh (-1)); [contradiction | now left].
Qed.

Example refine_prompt_sample :
  refine_prompt 2 (-1) 3 (-1) = ["[oral_2]"; "[break_3]"] /\
  join (refine_prompt 2 (-1) 3 (-1)) = "[oral_2][break_3]" /\
  refine_prompt (-1) (-1) (-1) (-1) = [].
Proof. repeat split. Qed.

(** ** segments_length_limit *)

Lemma text_len_app (l1 l2 : list segment) :
  text_len (l1 ++ l2) = text_len l1 + text_len l2.
Proof.
  induction l1 as [| [d | t a] l1 IH]; simpl; lia.
Qed.

Lemma len_nonneg (s : string) : 0 <= len s.
Proof. unfold len. lia. Qed.

Lemma text_len_nonneg (l : list segment) : 0 <= text_len l.
Proof.
  induction l as [| [d | t a] l IH]; simpl; pose proof (len_nonneg ""); try lia.
  pose proof (len_nonneg t). lia.
Qed.

(** What one run of the loop does from the state [(ret_segments, total_len)]:
    it appends a prefix [kept] of the remaining segments, every text of
    which fits, and stops at the end or in front of a text that does not. *)
Lemma limit_loop_spec (total_max : Z) (segments : list segment) :
  forall (ret_segments : list segment) (total_len : Z),
  exists kept dropped : list segment,
    segments = (kept ++ dropped)%list /\
    limit_loop segments total_max ret_segments total_len
      = (ret_segments ++ kept)%list /\
    (forall p t a q, kept = (p ++ SSMLSegment t a :: q)%list ->
       total_len + text_len p + len t <= total_max) /\
    (dropped = [] \/
     exists t a rest, dropped = SSMLSegment t a :: rest /\
       total_len + text_len kept + len t > total_max).
Proof.
  induction segments as [| seg rest IH]; intros acc tl.
  - exists [], []. simpl. rewrite app_nil_r. repeat split; auto.
    intros [| x p] t a q Hq; discriminate Hq.
  - destruct seg as [d | t a]; simpl.
    + destruct (IH (acc ++ [SSMLBreak d])%list tl)
        as (kept & dropped & Hsplit & Hrun & Hfit & Hstop).
      exists (SSMLBreak d :: kept), dropped. repeat split.
      * simpl. now rewrite Hsplit.
      * rewrite Hrun, <- app_assoc. reflexivity.
      * intros [| x p] t a q Hq; [discriminate Hq |].
        injection Hq as Hx Hq. subst x. simpl. eauto.
      * simpl. exact Hstop.
    + destruct (Z.gtb_spec (tl + len t) total_max) as [Hover | Hfits].
      * exists [], (SSMLSegment t a :: rest). simpl. rewrite app_nil_r.
        repeat split; auto.
        -- intros [| x p] t' a' q Hq; discriminate Hq.
        -- right. exists t, a, rest. split; [reflexivity | lia].
      * destruct (IH (acc ++ [SSMLSegment t a])%list (tl + len t))
          as (kept & dropped & Hsplit & Hrun & Hfit & Hstop).
        exists (SSMLSegment t a :: kept), dropped. repeat split.
        -- simpl. now rewrite Hsplit.
        -- rewrite Hrun, <- app_assoc. reflexivity.
        -- intros [| x p] t' a' q Hq.
           ++ injection Hq as Ht _ _. subst t'. simpl. lia.
           ++ injection Hq as Hx Hq. subst x. simpl.
              specialize (Hfit _ _ _ _ Hq). lia.
        -- simpl. destruct Hstop as [-> | (t' & a' & r' & -> & Hgt)];
             [now left | right].
           exists t', a', r'. split; [reflexivity | lia].
Qed.

(** A list of segments with no text, or with a last text. *)
Lemma last_text (l : list segment) :
  text_len l = 0 \/
  exists p t a q, l = (p ++ SSMLSegment t a :: q)%list /\
    text_len l = text_len p + len t.
Proof.
  induction l as [| [d | t a] l IH].
  - now left.
  - destruct IH as [H0 | (p & t & a & q & -> & Hlen)]; [now left | right].
    exists (SSMLBreak d :: p), t, a, q. split; [reflexivity |].
    simpl. exact Hlen.
  - right. destruct IH as [H0 | (p & t' & a' & q & -> & Hlen)].
    + exists [], t, a, l. split; [reflexivity |]. simpl. lia.
    + exists (SSMLSegment t a :: p), t', a', q. split; [reflexivity |].
      simpl. lia.
Qed.

(** C2: the result is a prefix [kept] of the segments; every text in it
    fits the budget together with the texts before it, so that the text
    length of the result is at most the budget, a number of characters;
    every break in front of which all texts fit is in it; and it ends
    either with the last segment or right in front of the first text that
    does not fit, so that this text and all that follows it, breaks
    included, is dropped. *)
Theorem segments_length_limit_spec (segments : list segment) (total_max : Z) :
  exists kept dropped : list segment,
    segments = (kept ++ dropped)%list /\
    segments_length_limit segments total_max = kept /\
    (forall p t a q, kept = (p ++ SSMLSegment t a :: q)%list ->
       text_len p + len t <= total_max) /\
    (0 <= total_max -> text_len kept <= total_max) /\
    (forall p d q, segments = (p ++ SSMLBreak d :: q)%list ->
       (forall p1 t a p2, p = (p1 ++ SSMLSegment t a :: p2)%list ->
          text_len p1 + len t <= total_max) ->
       exists k, kept = (p ++ SSMLBreak d :: k)%list) /\
    (dropped = [] \/
     exists t a rest, dropped = SSMLSegment t a :: rest /\
       text_len kept + len t > total_max).
Proof.
  destruct (limit_loop_spec total_max segments [] 0)
    as (kept & dropped & Hsplit & Hrun & Hfit & Hstop).
  exists kept, dropped. unfold segments_length_limit. rewrite Hrun. simpl.
  split; [exact Hsplit |]. split; [reflexivity |]. split; [exact Hfit |].
  split; [| split; [| exact Hstop]].
  - intros Hmax. destruct (last_text kept) as [H0 | (p & t & a & q & Hk & Hl)].
    + lia.
    + rewrite Hl. exact (Hfit _ _ _ _ Hk).
  - intros p d q Hseg Hp. rewrite Hsplit in Hseg.
    destruct Hstop as [-> | (t & a & rest & -> & Hover)].
    + rewrite app_nil_r in Hseg. eauto.
    + apply app_eq_app in Hseg as [l [[Hk Hd] | [Hk Hd]]].
      * destruct l as [| x l]; [discriminate Hd |].
        injection Hd as <- _. eauto.
      * destruct l as [| x l]; [discriminate Hd |].
        injection Hd as <- _. subst p.
        specialize (Hp kept t a l eq_refl). simpl in Hover. lia.
Qed.

(** No look-ahead: with the budget [5] the text ["defg"] does not fit after
    ["abc"], and the break and the short text behind it are dropped with it. *)
Example segments_length_limit_sample :
  segments_length_limit
    [SSMLSegment "abc" ∅; SSMLBreak 200; SSMLSegment "defg" ∅; SSMLBreak 300;
     SSMLSegment "x" ∅] 5
  = [SSMLSegment "abc" ∅; SSMLBreak 200].
Proof. reflexivity. Qed.

(** A budget below zero is no number of characters: no text fits it, and
    the breaks in front of the first text are all that is kept. *)
Example segments_length_limit_negative_budget :
  segments_length_limit [SSMLBreak 500; SSMLSegment "hi" ∅] (-1) = [SSMLBreak 500] /\
  text_len (segments_length_limit [SSMLBreak 500; SSMLSegment "hi" ∅] (-1)) = 0.
Proof. split; reflexivity. Qed.

(** The loop only appends to what it has kept so far. *)
Lemma limit_loop_extends (total_max : Z) (segments acc : list segment) (tl : Z) :
  exists kept, limit_loop segments total_max acc tl = (acc ++ kept)%list.
Proof.
  destruct (limit_loop_spec total_max segments acc tl)
    as (kept & dropped & _ & Hrun & _). eauto.
Qed.

Lemma limit_nothing (segments : list segment) (total_max : Z) :
  segments_length_limit segments total_max = [] <->
  segments = [] \/
  exists t a rest, segments = SSMLSegment t a :: rest /\ len t > total_max.
Proof.
  unfold segments_length_limit. destruct segments as [| [d | t a] rest]; simpl.
  - split; [now left | reflexivity].
  - destruct (limit_loop_extends total_max rest [SSMLBreak d] 0) as [kept ->].
    split; [discriminate |].
    intros [Hnil | (t & a & r & Hs & _)]; discriminate.
  - change (0 + len t) with (len t).
    destruct (Z.gtb_spec (len t) total_max) as [Hover | Hfits].
    + split; [| reflexivity]. intros _. right. exists t, a, rest.
      split; [reflexivity | lia].
    + destruct (limit_loop_extends total_max rest [SSMLSegment t a] (len t))
        as [kept ->].
      split; [discriminate |].
      intros [Hnil | (t' & a' & r & Hs & Hover)]; [discriminate |].
      injection Hs as -> _ _. lia.
Qed.


(** ** tts_generate, stage by stage *)

Section StagesOfTheCall.
Context `{Externals}.

Lemma try_int_or_default (v : pyval) (d : Z) (tr : list event) :
  try_except (lift (py_int v)) (fun _ => ret d) tr
  = (tr, inr (match py_int v with inr n => n | inl _ => d end)).
Proof. unfold try_except, lift, ret. now destruct (py_int v). Qed.

(** The outcome of a call of [tts_generate]: the checks in the order of the
    code, each ending the call with nothing enqueued when it fails, and
    then the one request handed to the handler. *)
Lemma tts_generate_stages (a : tts_args) :
  run (tts_generate a) =
    if String.eqb (request_text a) ""
    then ([], inl (GrError "Text is empty, please input some text"))
    else
      match eff_top_k a with
      | inl e => ([], inl e)
      | inr top_k =>
        match clamp_seed (coalesced_seed a) with
        | inl e => ([], inl e)
        | inr infer_seed =>
          match (if truthy (arg_spk_file a)
                 then match from_file (arg_spk_file a) with
                      | inr s => inr (PySpk s)
                      | inl _ => inl (GrError "Failed to load speaker file")
                      end
                 else inr (seed_speaker a)) with
          | inl e => ([], inl e)
          | inr speaker =>
            match arg_ref_audio a with
            | None =>
                enqueue_and_convert (tts_handler a top_k infer_seed speaker)
            | Some ref_audio =>
                match arg_ref_audio_text a with
                | None => ([], inl (GrError "ref_audio_text is empty"))
                | Some t =>
                    if String.eqb (strip t) ""
                    then ([], inl (GrError "ref_audio_text is empty"))
                    else enqueue_and_convert
                           (tts_handler a top_k infer_seed
                              (PySpk (from_ref_wav_bytes (encode_to_wav ref_audio) t)))
                end
            end
          end
        end
      end.
Proof.
  unfold run, tts_generate, enqueue_and_convert, tts_handler, eff_top_k,
    clamp_seed, seed_speaker, coalesced_seed, coalesced_temperature,
    coalesced_prefix, coalesced_prompt1, coalesced_prompt2,
    adjust_temperature, request_text, eff_batch_size, style_params, eff_style.
  cbv beta iota zeta delta [bind lift ret raise emit try_except].
  destruct (py_int (arg_batch_size a)).
  all: destruct (String.eqb (slice_to (strip (arg_text a)) tts_max) "");
    [reflexivity |].
  all: destruct (arg_top_k a) as [| b | k | f | s | s];
    try destruct (int_of_f64 (f64_of_float f)) as [e0 | k0]; try reflexivity.
  all: destruct (np_clip_float64 _ _ _) as [e1 | x]; [reflexivity |].
  all: destruct (int_of_f64 x) as [e2 | n]; [reflexivity |].
  all: destruct (truthy (arg_spk_file a));
    [destruct (from_file (arg_spk_file a)) as [e3 | s3]; [reflexivity |] |].
  all: destruct (arg_ref_audio a) as [ra |];
    [destruct (arg_ref_audio_text a) as [t |];
     [destruct (String.eqb (strip t) "") |]; try reflexivity |].
  all: cbn [app]; destruct (tts_enqueue _) as [e4 | [sr au]]; reflexivity.
Qed.

End StagesOfTheCall.

(** ** The seed clamp *)

Lemma float64_of_int_exact (z : Z) :
  Z.abs z < 2 ^ 53 -> float64_of_int z = F64_fin z 0.
Proof.
  intros Hz. unfold float64_of_int.
  destruct (Z.leb_spec (Z.log2 (Z.abs z) - 52) 0) as [_ | Hsh]; [reflexivity |].
  exfalso.
  assert (Hpos : 0 < Z.abs z).
  { destruct (Z.abs z) eqn:Ha; try lia. simpl in Hsh. lia. }
  pose proof (Z.log2_lt_pow2 (Z.abs z) 53 Hpos) as [Hlt _].
  specialize (Hlt Hz). lia.
Qed.

(** From [2^53] on the mantissa of the rounded value keeps 53 bits, so the
    value stays at or above [2^53], up to an infinity. *)
Lemma float64_of_int_large (z : Z) :
  2 ^ 53 <= Z.abs z ->
  float64_of_int z = F64_inf (z <? 0) \/
  exists q e, float64_of_int z = F64_fin (Z.sgn z * q) e /\ 0 < e /\ 2 ^ 52 <= q.
Proof.
  intros Hz. unfold float64_of_int.
  assert (Hlog : 53 <= Z.log2 (Z.abs z)).
  { apply Z.log2_le_pow2; lia. }
  destruct (Z.leb_spec (Z.log2 (Z.abs z) - 52) 0) as [Hsh | Hsh]; [lia |].
  set (sh := Z.log2 (Z.abs z) - 52) in *.
  set (q := Z.shiftr (Z.abs z) sh).
  assert (Hq : 2 ^ 52 <= q).
  { unfold q. rewrite Z.shiftr_div_pow2 by lia.
    apply Z.div_le_lower_bound; [apply Z.pow_pos_nonneg; lia |].
    rewrite Z.mul_comm, <- Z.pow_add_r by lia.
    replace (52 + sh) with (Z.log2 (Z.abs z)) by (unfold sh; lia).
    apply Z.log2_spec. lia. }
  match goal with
  | |- context [if ?c then q + 1 else q] =>
      set (q' := if c then q + 1 else q)
  end.
  assert (Hq' : 2 ^ 52 <= q') by (unfold q'; destruct (_ || _); lia).
  destruct (2 ^ 1024 <=? Z.shiftl q' sh); [now left | right].
  exists q', sh. repeat split; assumption.
Qed.

Lemma f64_ltb_fin_int (m e c : Z) :
  f64_ltb (F64_fin m e) (F64_fin c 0)
  = if 0 <=? e then m * 2 ^ e <? c else m <? c * 2 ^ (- e).
Proof.
  unfold f64_ltb. destruct (Z.leb_spec 0 e) as [He | He].
  - rewrite Z.min_r by lia. rewrite !Z.sub_0_r, Z.shiftl_0_r.
    now rewrite Z.shiftl_mul_pow2 by lia.
  - rewrite Z.min_l by lia. rewrite Z.sub_diag, Z.shiftl_0_r, Z.sub_0_l.
    now rewrite Z.shiftl_mul_pow2 by lia.
Qed.

Lemma f64_ltb_int_fin (c m e : Z) :
  f64_ltb (F64_fin c 0) (F64_fin m e)
  = if 0 <=? e then c <? m * 2 ^ e else c * 2 ^ (- e) <? m.
Proof.
  unfold f64_ltb. destruct (Z.leb_spec 0 e) as [He | He].
  - rewrite Z.min_l by lia. rewrite !Z.sub_0_r, Z.shiftl_0_r.
    now rewrite Z.shiftl_mul_pow2 by lia.
  - rewrite Z.min_r by lia. rewrite Z.sub_diag, Z.shiftl_0_r, Z.sub_0_l.
    now rewrite Z.shiftl_mul_pow2 by lia.
Qed.

(** Truncation of [m / p] for [- p <= m <= hi * p]. *)
Lemma quot_within (m p hi : Z) :
  0 < p -> 0 <= hi -> - p <= m -> m <= hi * p -> -1 <= Z.quot m p <= hi.
Proof.
  intros Hp Hhi Hlo Hup. destruct (Z.le_gt_cases 0 m) as [Hm | Hm].
  - rewrite Z.quot_div_nonneg by lia. split.
    + pose proof (Z.div_pos m p Hm Hp). lia.
    + apply Z.div_le_upper_bound; lia.
  - replace m with (- (- m)) by lia. rewrite Z.quot_opp_l by lia.
    rewrite Z.quot_div_nonneg by lia.
    assert (0 <= - m / p) by (apply Z.div_pos; lia).
    assert (- m / p <= 1) by (apply Z.div_le_upper_bound; lia).
    lia.
Qed.

(** Clipping a binary64 value that is not a NaN to the range of seeds and
    truncating it gives an integer of the range: the lower bound for a
    value below it, the upper bound for a value above it, and an integer of
    the range itself. *)
Lemma clip_then_int (x : f64) :
  f64_isnan x = false ->
  exists s, int_of_f64 (np_minimum (np_maximum x seed_lo) seed_hi) = inr s /\
    -1 <= s <= 2 ^ 32 - 1 /\
    (f64_ltb x seed_lo = true -> s = -1) /\
    (f64_ltb seed_hi x = true -> s = 2 ^ 32 - 1) /\
    (forall z, x = F64_fin z 0 -> -1 <= z <= 2 ^ 32 - 1 -> s = z).
Proof.
  intros Hnan. destruct x as [| [|] | m e]; try discriminate Hnan.
  - exists (-1). repeat split; try reflexivity; try discriminate; lia.
  - exists (2 ^ 32 - 1). repeat split; try reflexivity; try discriminate; lia.
  - unfold np_maximum, np_minimum, seed_lo, seed_hi. cbn [f64_isnan].
    pose proof (f64_ltb_fin_int m e (-1)) as Elo.
    pose proof (f64_ltb_int_fin (2 ^ 32 - 1) m e) as Ehi.
    assert (Hp : 0 < 2 ^ Z.abs e) by (apply Z.pow_pos_nonneg; lia).
    destruct (f64_ltb (F64_fin m e) (F64_fin (-1) 0)) eqn:Hlo.
    + cbn [f64_isnan].
      replace (f64_ltb (F64_fin (2 ^ 32 - 1) 0) (F64_fin (-1) 0)) with false
        by reflexivity.
      exists (-1). split; [reflexivity |]. split; [lia |].
      split; [reflexivity |]. split.
      * intros Hhi. rewrite Hhi in Ehi.
        destruct (Z.leb_spec 0 e) as [He | He];
          symmetry in Elo, Ehi; apply Z.ltb_lt in Elo, Ehi.
        -- lia.
        -- replace (Z.abs e) with (- e) in Hp by lia. nia.
      * intros z Hz Hr. injection Hz as -> ->. simpl in Elo.
        symmetry in Elo. apply Z.ltb_lt in Elo. lia.
    + cbn [f64_isnan].
      destruct (f64_ltb (F64_fin (2 ^ 32 - 1) 0) (F64_fin m e)) eqn:Hhi.
      * exists (2 ^ 32 - 1). split; [reflexivity |]. split; [lia |].
        split; [discriminate |]. split; [reflexivity |].
        intros z Hz Hr. injection Hz as -> ->. simpl in Ehi.
        symmetry in Ehi. apply Z.ltb_lt in Ehi. lia.
      * unfold int_of_f64.
        destruct (Z.leb_spec 0 e) as [He | He];
          symmetry in Elo, Ehi; apply Z.ltb_ge in Elo, Ehi.
        -- exists (Z.shiftl m e). rewrite Z.shiftl_mul_pow2 by lia.
           split; [reflexivity |]. split; [lia |].
           split; [discriminate |]. split; [discriminate |].
           intros z Hz _. injection Hz as -> ->. simpl. lia.
        -- exists (Z.quot m (2 ^ (- e))).
           replace (Z.abs e) with (- e) in Hp by lia.
           split; [reflexivity |].
           split; [apply quot_within with (hi := 2 ^ 32 - 1); lia |].
           split; [discriminate |]. split; [discriminate |].
           intros z Hz _. injection Hz as -> ->. lia.
Qed.

Lemma clamp_seed_of_f64 (v : pyval) (x : f64) :
  np_clip_float64 v (-1) (2 ^ 32 - 1)
    = inr (np_minimum (np_maximum x seed_lo) seed_hi) ->
  f64_isnan x = false ->
  exists s, clamp_seed v = inr s /\ -1 <= s <= 2 ^ 32 - 1 /\
    (f64_ltb x seed_lo = true -> s = -1) /\
    (f64_ltb seed_hi x = true -> s = 2 ^ 32 - 1) /\
    (forall z, x = F64_fin z 0 -> -1 <= z <= 2 ^ 32 - 1 -> s = z).
Proof.
  intros Hclip Hnan. unfold clamp_seed. rewrite Hclip.
  now apply clip_then_int.
Qed.

Lemma int64_domain (z : Z) :
  (- 2 ^ 63 <=? z) && (z <? 2 ^ 64) = true <-> - 2 ^ 63 <= z < 2 ^ 64.
Proof. rewrite andb_true_iff, Z.leb_le, Z.ltb_lt. reflexivity. Qed.

(** On an [int] of 64 bits the clamp is the clamp of the integers: the
    detour by binary64 loses nothing, since every integer of the range is a
    double and rounding keeps a large integer large. *)
Lemma clamp_seed_int (z : Z) :
  - 2 ^ 63 <= z < 2 ^ 64 ->
  clamp_seed (PyInt z) = inr (Z.max (-1) (Z.min z (2 ^ 32 - 1))).
Proof.
  intros Hdom. apply int64_domain in Hdom.
  destruct (clamp_seed_of_f64 (PyInt z) (float64_of_int z))
    as (s & -> & Hrange & Hlo & Hhi & Hin).
  { unfold np_clip_float64. rewrite Hdom. reflexivity. }
  { destruct (Z.lt_ge_cases (Z.abs z) (2 ^ 53)) as [Hs | Hl].
    - now rewrite float64_of_int_exact.
    - destruct (float64_of_int_large z Hl) as [-> | (q & e & -> & _)];
        reflexivity. }
  f_equal.
  destruct (Z.lt_ge_cases (Z.abs z) (2 ^ 53)) as [Hs | Hl].
  - rewrite float64_of_int_exact in Hlo, Hhi, Hin by assumption.
    unfold seed_lo in Hlo. unfold seed_hi in Hhi.
    rewrite f64_ltb_fin_int in Hlo. rewrite f64_ltb_int_fin in Hhi.
    cbn [Z.leb Z.compare Z.pow Z.pow_pos Pos.iter Z.mul Pos.mul] in Hlo, Hhi.
    rewrite Z.mul_1_r in Hlo, Hhi.
    destruct (Z.ltb_spec z (-1)) as [Hz | Hz]; [rewrite Hlo by reflexivity; lia |].
    destruct (Z.ltb_spec (2 ^ 32 - 1) z) as [Hz' | Hz'];
      [rewrite Hhi by reflexivity; lia |].
    rewrite (Hin z eq_refl) by lia. lia.
  - destruct (float64_of_int_large z Hl) as [E | (q & e & E & He & Hq)];
      rewrite E in Hlo, Hhi.
    + destruct (Z.ltb_spec z 0) as [Hz | Hz].
      * rewrite Hlo by reflexivity. lia.
      * rewrite Hhi by reflexivity. lia.
    + unfold seed_lo in Hlo. unfold seed_hi in Hhi.
      rewrite f64_ltb_fin_int in Hlo. rewrite f64_ltb_int_fin in Hhi.
      destruct (Z.leb_spec 0 e) as [_ | He']; [| lia].
      assert (2 <= 2 ^ e).
      { change 2 with (2 ^ 1) at 1. apply Z.pow_le_mono_r; lia. }
      destruct (Z.ltb_spec z 0) as [Hz | Hz].
      * rewrite Hlo; [lia |]. apply Z.ltb_lt.
        replace (Z.sgn z) with (-1) by lia. nia.
      * rewrite Hhi; [lia |]. apply Z.ltb_lt.
        replace (Z.sgn z) with 1 by lia. nia.
Qed.

(** An [int] beyond 64 bits is refused by [np.clip]. *)
Lemma clamp_seed_int_refused (z : Z) :
  z < - 2 ^ 63 \/ 2 ^ 64 <= z ->
  exists msg, clamp_seed (PyInt z) = inl (TypeError msg).
Proof.
  intros Hz. unfold clamp_seed, np_clip_float64.
  destruct ((- 2 ^ 63 <=? z) && (z <? 2 ^ 64)) eqn:Hdom.
  - apply int64_domain in Hdom. lia.
  - eexists. reflexivity.
Qed.

(** The seed that comes out of the clamp of an [int]. *)
Lemma clamp_seed_int_inv (z s : Z) :
  clamp_seed (PyInt z) = inr s ->
  - 2 ^ 63 <= z < 2 ^ 64 /\ s = Z.max (-1) (Z.min z (2 ^ 32 - 1)).
Proof.
  intros Hs.
  destruct (Z.lt_ge_cases z (- 2 ^ 63)) as [Hlo | Hlo];
    [destruct (clamp_seed_int_refused z) as [msg E]; [now left | congruence] |].
  destruct (Z.lt_ge_cases z (2 ^ 64)) as [Hhi | Hhi];
    [| destruct (clamp_seed_int_refused z) as [msg E]; [now right | congruence]].
  split; [lia |]. rewrite clamp_seed_int in Hs by lia. congruence.
Qed.

Lemma clamp_seed_bool (b : bool) :
  clamp_seed (PyBool b) = inr (if b then 1 else 0).
Proof. now destruct b. Qed.

Lemma clamp_seed_float (f : float) :
  f64_isnan (f64_of_float f) = false ->
  exists s, clamp_seed (PyFloat f) = inr s /\ -1 <= s <= 2 ^ 32 - 1 /\
    (f64_ltb (f64_of_float f) seed_lo = true -> s = -1) /\
    (f64_ltb seed_hi (f64_of_float f) = true -> s = 2 ^ 32 - 1).
Proof.
  intros Hnan.
  destruct (clamp_seed_of_f64 (PyFloat f) (f64_of_float f) eq_refl Hnan)
    as (s & E & Hrange & Hlo & Hhi & _).
  exists s. repeat split; auto; lia.
Qed.

(** Whatever the value, a seed that comes out of the clamp is in range. *)
Lemma clamp_seed_range (v : pyval) (s : Z) :
  clamp_seed v = inr s -> -1 <= s <= 2 ^ 32 - 1.
Proof.
  destruct v as [| b | z | f | t | k]; try discriminate.
  - rewrite clamp_seed_bool. intros [= <-]. destruct b; lia.
  - intros Hs. apply clamp_seed_int_inv in Hs. lia.
  - destruct (f64_isnan (f64_of_float f)) eqn:Hnan.
    + unfold clamp_seed, np_clip_float64.
      destruct (f64_of_float f); try discriminate Hnan. discriminate.
    + destruct (clamp_seed_float f Hnan) as (s' & -> & Hr & _).
      intros [= <-]. exact Hr.
Qed.

(** ** tts_generate: what is enqueued, and when *)

Section Requests.
Context `{Externals}.
Implicit Types (a : tts_args) (h : TTSHandler).

Lemma enqueue_and_convert_trace h : fst (enqueue_and_convert h) = [EnqueueTTS h].
Proof. reflexivity. Qed.

(** A call enqueues at most one request, and only after every check. *)
Lemma tts_generate_enqueued a h :
  In (EnqueueTTS h) (fst (run (tts_generate a))) ->
  fst (run (tts_generate a)) = [EnqueueTTS h] /\
  String.eqb (request_text a) "" = false /\
  exists top_k infer_seed speaker,
    h = tts_handler a top_k infer_seed speaker /\
    eff_top_k a = inr top_k /\
    clamp_seed (coalesced_seed a) = inr infer_seed /\
    speaker_of a speaker.
Proof.
  rewrite tts_generate_stages. unfold speaker_of.
  destruct (String.eqb (request_text a) ""); [intros [] |].
  destruct (eff_top_k a) as [e | top_k]; [intros [] |].
  destruct (clamp_seed (coalesced_seed a)) as [e | infer_seed]; [intros [] |].
  destruct (truthy (arg_spk_file a)).
  - destruct (from_file (arg_spk_file a)) as [e | s]; [intros [] |].
    destruct (arg_ref_audio a) as [ra |].
    + destruct (arg_ref_audio_text a) as [t |]; [| intros []].
      destruct (String.eqb (strip t) "") eqn:Ht; [intros [] |].
      rewrite enqueue_and_convert_trace. intros [[= <-] | []].
      repeat split. eexists _, _, _. repeat split; eauto.
    + rewrite enqueue_and_convert_trace. intros [[= <-] | []].
      repeat split. eexists _, _, _. repeat split; eauto.
  - destruct (arg_ref_audio a) as [ra |].
    + destruct (arg_ref_audio_text a) as [t |]; [| intros []].
      destruct (String.eqb (strip t) "") eqn:Ht; [intros [] |].
      rewrite enqueue_and_convert_trace. intros [[= <-] | []].
      repeat split. eexists _, _, _. repeat split; eauto; discriminate.
    + rewrite enqueue_and_convert_trace. intros [[= <-] | []].
      repeat split. eexists _, _, _. repeat split; eauto; discriminate.
Qed.

(** A call that fails one of its checks ends with an exception and has
    enqueued nothing; a call that passes them has enqueued one request. *)
Lemma tts_generate_trace a :
  (exists e, run (tts_generate a) = ([], inl e)) \/
  (exists h, fst (run (tts_generate a)) = [EnqueueTTS h]).
Proof.
  rewrite tts_generate_stages.
  destruct (String.eqb (request_text a) ""); [left; eauto |].
  destruct (eff_top_k a) as [e | top_k]; [left; eauto |].
  destruct (clamp_seed (coalesced_seed a)) as [e | infer_seed]; [left; eauto |].
  destruct (if truthy (arg_spk_file a) then _ else _) as [e | speaker];
    [left; eauto |].
  destruct (arg_ref_audio a) as [ra |]; [| right; eauto].
  destruct (arg_ref_audio_text a) as [t |]; [| left; eauto].
  destruct (String.eqb (strip t) ""); [left; eauto | right; eauto].
Qed.

(** A call that passes every check enqueues the request built from the
    values of its lines. *)
Lemma tts_generate_accepted a (top_k : pyval) (infer_seed : Z) :
  text_given a -> eff_top_k a = inr top_k ->
  clamp_seed (coalesced_seed a) = inr infer_seed -> speaker_accepted a ->
  exists speaker,
    run (tts_generate a)
    = enqueue_and_convert (tts_handler a top_k infer_seed speaker).
Proof.
  unfold text_given, speaker_accepted. intros Htext Hk Hs [Hfile Href].
  rewrite tts_generate_stages, Htext, Hk, Hs.
  destruct (truthy (arg_spk_file a));
    [destruct (Hfile eq_refl) as [s ->] |].
  all: destruct (arg_ref_audio a) as [ra |]; [| eexists; reflexivity].
  all: destruct (arg_ref_audio_text a) as [t |]; [| discriminate Href].
  all: simpl in Href; rewrite Href; eexists; reflexivity.
Qed.

(** A call whose seed the clamp refuses ends with the exception of the
    clamp, and nothing enqueued. *)
Lemma tts_generate_seed_refused a (e : exn) :
  text_given a -> top_k_converts a ->
  clamp_seed (coalesced_seed a) = inl e ->
  run (tts_generate a) = ([], inl e).
Proof.
  unfold text_given. intros Htext [top_k Hk] Hs.
  now rewrite tts_generate_stages, Htext, Hk, Hs.
Qed.

End Requests.

(** ** Coalescing of the caller's values with the style preset *)

Lemma py_or_pick (explicit : pyval) (params : gmap string pyval)
    (key : string) (fallback : pyval) :
  py_or explicit (dict_get params key fallback)
  = if truthy explicit then explicit
    else match params !! key with Some v => v | None => fallback end.
Proof. unfold py_or, dict_get. now destruct (truthy explicit), (params !! key). Qed.

(** [-1] is a true value, like every non-zero number. *)
Lemma truthy_int (z : Z) : truthy (PyInt z) = true <-> z <> 0.
Proof. simpl. destruct (Z.eqb_spec z 0); simpl; split; congruence. Qed.

Lemma truthy_str (s : string) : truthy (PyStr s) = true <-> s <> "".
Proof. simpl. destruct (String.eqb_spec s ""); simpl; split; congruence. Qed.

(** C1, as the code has it: in the request that [tts_generate] enqueues,
    each of [prefix], [prompt1], [prompt2], the temperature (before its
    [0.1] adjustment) and the seed (before its clamp) is the caller's
    value when that value is true in Python's sense, which [-1] is; and
    otherwise the value of the style preset when the preset has the key,
    and else the fallback of the code: the caller's own value for the seed
    and the temperature, the empty string for the other three. *)
Theorem tts_generate_coalescing `{Externals} (a : tts_args) (h : TTSHandler) :
  In (EnqueueTTS h) (fst (run (tts_generate a))) ->
  let pick (explicit : pyval) (key : string) (fallback : pyval) :=
    if truthy explicit then explicit
    else match style_params a !! key with Some v => v | None => fallback end in
  prefix (tts_config h) = Some (pick (arg_prefix a) "prefix" (PyStr "")) /\
  prompt1 (tts_config h) = Some (pick (arg_prompt1 a) "prompt1" (PyStr "")) /\
  prompt2 (tts_config h) = Some (pick (arg_prompt2 a) "prompt2" (PyStr "")) /\
  temperature (tts_config h)
    = Some (adjust_temperature
              (pick (arg_temperature a) "temperature" (arg_temperature a))) /\
  (exists s, seed (infer_config h) = Some s /\
     clamp_seed (pick (arg_infer_seed a) "seed" (arg_infer_seed a)) = inr s) /\
  (forall z, arg_infer_seed a = PyInt z -> z <> 0 ->
     seed (infer_config h) = Some (Z.max (-1) (Z.min z (2 ^ 32 - 1)))).
Proof.
  intros Hin pick.
  destruct (tts_generate_enqueued a h Hin)
    as (_ & _ & top_k & infer_seed & speaker & -> & _ & Hseed & _).
  unfold pick. rewrite <- !py_or_pick. cbn.
  repeat split.
  - exists infer_seed. split; [reflexivity | exact Hseed].
  - intros z Hz Hnz. unfold coalesced_seed, py_or in Hseed.
    rewrite Hz in Hseed. apply truthy_int in Hnz. rewrite Hnz in Hseed.
    apply clamp_seed_int_inv in Hseed as [_ ->]. reflexivity.
Qed.

(** The default call under a style that sets the seed to [42] and the
    temperature to [0.5]: a request is enqueued, with the caller's
    temperature [0.3] and the caller's seed [-1]. *)
Lemma tts_generate_coalescing_witness :
  In (EnqueueTTS styled_request)
     (fst (run (tts_generate (H := styled) (tts_defaults "hello")))) /\
  prefix (tts_config styled_request) = Some (PyStr "") /\
  temperature (tts_config styled_request) = Some (PyFloat float_0_3) /\
  seed (infer_config styled_request) = Some (-1).
Proof.
  assert (Hin : In (EnqueueTTS styled_request)
                  (fst (run (tts_generate (H := styled) (tts_defaults "hello"))))).
  { vm_compute. left. reflexivity. }
  split; [exact Hin |].
  destruct (tts_generate_coalescing (H := styled) (tts_defaults "hello")
              styled_request Hin)
    as (Hprefix & _ & _ & Htemp & _ & Hseed).
  split; [exact Hprefix |]. split; [exact Htemp |].
  apply (Hseed (-1)); [reflexivity | lia].
Defined.

(** C1 fails at the sentinel: with the default [infer_seed = -1] and a
    style whose seed is [42], the request carries the seed [-1], not the
    seed of the style. *)
Lemma tts_generate_keeps_minus_one :
  arg_infer_seed (tts_defaults (H := styled) "hello") = PyInt (-1) /\
  style_params (H := styled) (tts_defaults "hello") !! "seed" = Some (PyInt 42) /\
  exists h,
    fst (run (tts_generate (H := styled) (tts_defaults "hello"))) = [EnqueueTTS h] /\
    seed (infer_config h) = Some (-1) /\
    seed (infer_config h) <> Some 42.
Proof.
  split; [reflexivity |]. split; [reflexivity |].
  eexists. split; [vm_compute; reflexivity |]. split; [reflexivity | discriminate].
Qed.

(** An explicit seed [0] is false in Python's sense, and gives way to the
    seed [42] of the style. *)
Example tts_generate_zero_seed_sample :
  let a := {| arg_text := "hello"; arg_temperature := PyFloat float_0_3;
              arg_top_p := PyFloat float_0_5; arg_top_k := PyFloat 0x1.4p4;
              arg_spk := PyInt 7; arg_infer_seed := PyInt 0;
              arg_use_decoder := PyBool true; arg_prompt1 := PyStr "";
              arg_prompt2 := PyStr "p2"; arg_prefix := PyStr "";
              arg_style := "*auto"; arg_disable_normalize := PyBool false;
              arg_batch_size := PyStr "many"; arg_enable_enhance := true;
              arg_enable_denoise := false; arg_spk_file := PyNone;
              arg_spliter_thr := PyInt 100; arg_eos := PyStr "[uv_break]";
              arg_pitch := PyInt 0; arg_speed_rate := PyInt 1;
              arg_volume_gain_db := PyInt 0; arg_normalize := PyBool true;
              arg_headroom := PyInt 1; arg_ref_audio := None;
              arg_ref_audio_text := None; arg_model_id := PyStr "chat-tts" |} in
  exists h, fst (run (tts_generate (H := styled) a)) = [EnqueueTTS h] /\
    seed (infer_config h) = Some 42 /\
    prompt2 (tts_config h) = Some (PyStr "p2") /\
    top_k (tts_config h) = Some (PyInt 20) /\
    batch_size (infer_config h) = 4 /\
    spk h = PySpk (a_speaker "seed_7").
Proof.
  intros a. eexists. split; [vm_compute; reflexivity |]. repeat split.
Qed.

(** ** The seed of a request *)

(** C4, as the code has it: the clamp sends every [int] of 64 bits, which
    are those that NumPy converts, into [[-1, 2^32 - 1]] (a value below
    [-1] to [-1], a value above [2^32 - 1] to [2^32 - 1], a value of the
    range to itself) and every [float] that is a number to an integer of
    the range; a call whose coalesced seed clamps to [s] and which passes
    its other checks enqueues a request with the seed [s]; an [int] beyond
    64 bits is refused by [np.clip] with a [TypeError], which ends the
    call with nothing enqueued; and the seed of every enqueued request is
    the clamp of the coalesced seed. *)
Theorem tts_generate_seed_clamp `{Externals} :
  (forall z : Z, - 2 ^ 63 <= z < 2 ^ 64 ->
     exists s, clamp_seed (PyInt z) = inr s /\ -1 <= s <= 2 ^ 32 - 1 /\
       (z < -1 -> s = -1) /\ (2 ^ 32 - 1 < z -> s = 2 ^ 32 - 1) /\
       (-1 <= z <= 2 ^ 32 - 1 -> s = z)) /\
  (forall f : float, f64_isnan (f64_of_float f) = false ->
     exists s, clamp_seed (PyFloat f) = inr s /\ -1 <= s <= 2 ^ 32 - 1 /\
       (f64_ltb (f64_of_float f) seed_lo = true -> s = -1) /\
       (f64_ltb seed_hi (f64_of_float f) = true -> s = 2 ^ 32 - 1)) /\
  (forall (a : tts_args) (s : Z),
     clamp_seed (coalesced_seed a) = inr s ->
     text_given a -> top_k_converts a -> speaker_accepted a ->
     -1 <= s <= 2 ^ 32 - 1 /\
     exists h, fst (run (tts_generate a)) = [EnqueueTTS h] /\
       seed (infer_config h) = Some s) /\
  (forall (a : tts_args) (z : Z),
     coalesced_seed a = PyInt z -> z < - 2 ^ 63 \/ 2 ^ 64 <= z ->
     text_given a -> top_k_converts a ->
     exists msg, run (tts_generate a) = ([], inl (TypeError msg))) /\
  (forall (a : tts_args) (h : TTSHandler),
     In (EnqueueTTS h) (fst (run (tts_generate a))) ->
     exists s, seed (infer_config h) = Some s /\
       clamp_seed (coalesced_seed a) = inr s /\ -1 <= s <= 2 ^ 32 - 1).
Proof.
  split; [| split; [| split; [| split]]].
  - intros z Hz. exists (Z.max (-1) (Z.min z (2 ^ 32 - 1))).
    split; [now apply clamp_seed_int |]. lia.
  - exact clamp_seed_float.
  - intros a s Hs Htext [top_k Hk] Hspk.
    split; [exact (clamp_seed_range _ _ Hs) |].
    destruct (tts_generate_accepted a top_k s Htext Hk Hs Hspk)
      as [speaker Hrun].
    rewrite Hrun. eexists. split; reflexivity.
  - intros a z Hseed Hz Htext Hk.
    destruct (clamp_seed_int_refused z Hz) as [msg Hs].
    exists msg. apply tts_generate_seed_refused; [assumption .. |].
    now rewrite Hseed.
  - intros a h Hin.
    destruct (tts_generate_enqueued a h Hin)
      as (_ & _ & top_k & infer_seed & speaker & -> & _ & Hseed & _).
    exists infer_seed. split; [reflexivity |]. split; [exact Hseed |].
    exact (clamp_seed_range _ _ Hseed).
Qed.

(** [tts_generate("hello", infer_seed=5000000000)] enqueues a request with
    the seed [2^32 - 1], and [tts_generate("hello", infer_seed=-7)] one
    with the seed [-1]. *)
Lemma tts_generate_seed_clamp_witness :
  (exists h,
     fst (run (tts_generate (H := unstyled)
                 (tts_call_with "hello" (PyInt 5000000000) false false)))
     = [EnqueueTTS h] /\
     seed (infer_config h) = Some 4294967295) /\
  (exists h,
     fst (run (tts_generate (H := unstyled)
                 (tts_call_with "hello" (PyInt (-7)) false false)))
     = [EnqueueTTS h] /\
     seed (infer_config h) = Some (-1)).
Proof.
  destruct (tts_generate_seed_clamp (H := unstyled))
    as (Hint & _ & Hrun & _ & _).
  split.
  - destruct (Hint 5000000000) as (s & Hs & _ & _ & Hhi & _); [lia |].
    rewrite (Hhi ltac:(lia)) in Hs.
    apply (Hrun (tts_call_with "hello" (PyInt 5000000000) false false)
                (2 ^ 32 - 1)).
    + exact Hs.
    + reflexivity.
    + eexists; reflexivity.
    + split; [discriminate | exact I].
  - destruct (Hint (-7)) as (s & Hs & _ & Hlo & _); [lia |].
    rewrite (Hlo ltac:(lia)) in Hs.
    apply (Hrun (tts_call_with "hello" (PyInt (-7)) false false) (-1)).
    + exact Hs.
    + reflexivity.
    + eexists; reflexivity.
    + split; [discriminate | exact I].
Defined.

(** C4 fails beyond 64 bits: the seed [2^64] is above [2^32 - 1], and
    [tts_generate("hello", infer_seed=2**64)] ends with the [TypeError] of
    [np.clip] and nothing enqueued, with no seed [2^32 - 1]. *)
Lemma tts_generate_seed_beyond_64_bits :
  let a := tts_call_with (H := unstyled) "hello" (PyInt (2 ^ 64)) false false in
  coalesced_seed a = PyInt (2 ^ 64) /\
  2 ^ 32 - 1 < 2 ^ 64 /\
  clamp_seed (PyInt (2 ^ 64)) <> inr (2 ^ 32 - 1) /\
  (exists msg, run (tts_generate a) = ([], inl (TypeError msg))) /\
  ~ (exists h, In (EnqueueTTS h) (fst (run (tts_generate a)))).
Proof.
  intros a. split; [reflexivity |]. split; [lia |].
  split; [discriminate |].
  split; [eexists; vm_compute; reflexivity |].
  intros [h Hin]. vm_compute in Hin. exact Hin.
Qed.

(** The clamp on a few values: a fraction is truncated, an infinity is
    clipped, and a NaN, which no comparison moves, is refused by [int]. *)
Example clamp_seed_samples :
  clamp_seed (PyInt 42) = inr 42 /\
  clamp_seed (PyInt (-7)) = inr (-1) /\
  clamp_seed (PyInt (2 ^ 64 - 1)) = inr 4294967295 /\
  clamp_seed (PyInt (- 2 ^ 63)) = inr (-1) /\
  clamp_seed (PyFloat 0x1.8p0) = inr 1 /\
  clamp_seed (PyFloat (-0x1.8p3)) = inr (-1) /\
  clamp_seed (PyFloat infinity) = inr 4294967295 /\
  clamp_seed (PyFloat nan)
    = inl (ValueError "cannot convert float NaN to integer").
Proof. repeat split. Qed.

(** [float64_of_int] agrees with the rounding of the standard library's
    model of binary64 on integers beyond 53 bits. *)
Example float64_of_int_samples :
  f64_of_float (SF2Prim (binary_normalize prec emax (2 ^ 53 + 1) 0 false))
    = F64_fin (2 ^ 52) 1 /\
  f64_eqb (float64_of_int (2 ^ 53 + 1)) (F64_fin (2 ^ 52) 1) = true /\
  f64_eqb (float64_of_int (2 ^ 53 + 3))
          (f64_of_float (SF2Prim (binary_normalize prec emax (2 ^ 53 + 3) 0 false)))
    = true /\
  f64_eqb (float64_of_int (- (2 ^ 60 + 12345)))
          (f64_of_float
             (SF2Prim (binary_normalize prec emax (- (2 ^ 60 + 12345)) 0 false)))
    = true.
Proof. repeat split. Qed.

(** ** The temperature of a request *)

(** No [int] is equal to [0.1]. *)
Lemma py_eq_float_int_0_1 (z : Z) : py_eq_float (PyInt z) float_0_1 = false.
Proof.
  unfold py_eq_float.
  change (f64_of_float float_0_1) with (F64_fin 7205759403792794 (-56)).
  unfold f64_eqb. rewrite Z.min_r by lia.
  rewrite Z.sub_diag, Z.shiftl_0_r.
  rewrite Z.shiftl_mul_pow2 by lia. apply Z.eqb_neq.
  change (2 ^ (0 - -56)) with 72057594037927936. lia.
Qed.

(** C5, as the code has it: the temperature of the request is [1e-9] when
    the coalesced temperature is equal to [0.1], and the coalesced
    temperature itself otherwise; and the coalesced temperature is the
    caller's value when that value is true in Python's sense. *)
Theorem tts_generate_temperature `{Externals} (a : tts_args) (h : TTSHandler) :
  In (EnqueueTTS h) (fst (run (tts_generate a))) ->
  (py_eq_float (coalesced_temperature a) float_0_1 = true ->
     temperature (tts_config h) = Some (PyFloat float_1e_9)) /\
  (py_eq_float (coalesced_temperature a) float_0_1 = false ->
     temperature (tts_config h) = Some (coalesced_temperature a)) /\
  (truthy (arg_temperature a) = true ->
     coalesced_temperature a = arg_temperature a) /\
  (truthy (arg_temperature a) = false ->
     coalesced_temperature a
     = match style_params a !! "temperature" with
       | Some v => v
       | None => arg_temperature a
       end).
Proof.
  intros Hin.
  destruct (tts_generate_enqueued a h Hin)
    as (_ & _ & top_k & infer_seed & speaker & -> & _).
  cbn. unfold adjust_temperature, coalesced_temperature.
  rewrite py_or_pick.
  repeat split; intros E; rewrite E; reflexivity.
Qed.

(** [tts_generate("hello", temperature=0.1)] with no style: the request
    carries [1e-9]. *)
Lemma tts_generate_temperature_witness :
  In (EnqueueTTS tenth_request)
     (fst (run (tts_generate (H := unstyled)
                  (tts_call "hello" (PyFloat float_0_1) PyNone None None)))) /\
  temperature (tts_config tenth_request) = Some (PyFloat float_1e_9).
Proof.
  assert (Hin : In (EnqueueTTS tenth_request)
                  (fst (run (tts_generate (H := unstyled)
                               (tts_call "hello" (PyFloat float_0_1) PyNone
                                  None None))))).
  { vm_compute. left. reflexivity. }
  split; [exact Hin |].
  apply (tts_generate_temperature (H := unstyled) _ _ Hin). reflexivity.
Defined.

(** C5 fails for a caller's temperature that is false in Python's sense:
    [tts_generate("hello", temperature=0)] under a style whose temperature
    is [0.5] enqueues a request with the temperature [0.5], though the
    caller's [0] is not equal to [0.1]. *)
Lemma tts_generate_zero_temperature_replaced :
  let a := tts_call (H := styled) "hello" (PyInt 0) PyNone None None in
  py_eq_float (arg_temperature a) float_0_1 = false /\
  exists h,
    fst (run (tts_generate (H := styled) a)) = [EnqueueTTS h] /\
    temperature (tts_config h) = Some (PyFloat float_0_5) /\
    temperature (tts_config h) <> Some (arg_temperature a).
Proof.
  intros a. split; [reflexivity |].
  eexists. split; [vm_compute; reflexivity |]. split; [reflexivity | discriminate].
Qed.

(** ** synthesize_ssml, stage by stage *)

(** The outcome of a call of [synthesize_ssml], check by check. *)
Lemma synthesize_ssml_stages `{Externals} (a : ssml_args) :
  run (synthesize_ssml a) =
    if String.eqb (strip (sarg_ssml a)) ""
    then ([], inl (GrError "SSML is empty, please input some SSML"))
    else
      match ssml_parse (strip (sarg_ssml a)) with
      | inl e => ([], inl e)
      | inr segments =>
          match segments_length_limit segments ssml_max with
          | [] => ([], inl (GrError "No valid segments in SSML"))
          | _ :: _ => ssml_enqueue_and_convert a
          end
      end.
Proof.
  unfold run, synthesize_ssml, ssml_enqueue_and_convert, ssml_handler.
  unfold bind at 1. rewrite try_int_or_default.
  cbv beta iota zeta delta [bind lift ret raise emit try_except].
  destruct (String.eqb (strip (sarg_ssml a)) ""); [reflexivity |].
  destruct (ssml_parse (strip (sarg_ssml a))) as [e | segments]; [reflexivity |].
  destruct (segments_length_limit segments ssml_max) as [| seg kept];
    [reflexivity |].
  cbn [List.length Z.of_nat Z.eqb app].
  destruct (ssml_enqueue _) as [e | [sr au]]; reflexivity.
Qed.

(** A call that passes the checks enqueues the request. *)
Lemma synthesize_ssml_accepted `{Externals} (a : ssml_args) :
  ssml_accepted a -> run (synthesize_ssml a) = ssml_enqueue_and_convert a.
Proof.
  intros (Hne & seg & rest & Hparse & Hfit).
  rewrite synthesize_ssml_stages, Hparse.
  destruct (String.eqb_spec (strip (sarg_ssml a)) ""); [contradiction |].
  destruct (segments_length_limit (seg :: rest) ssml_max) as [| k kept] eqn:Hlim;
    [| reflexivity].
  exfalso. apply limit_nothing in Hlim.
  destruct Hlim as [Hnil | (t & attrs & r & [= -> ->] & Hover)];
    [discriminate |].
  specialize (Hfit t attrs eq_refl). lia.
Qed.

(** ** The enhancer configuration *)

Lemma synthesize_ssml_enqueued `{Externals} (a : ssml_args) (h : SSMLHandler) :
  In (EnqueueSSML h) (fst (run (synthesize_ssml a))) ->
  ssml_enhancer_config h =
    {| enabled := sarg_enable_denoise a || sarg_enable_enhance a || false;
       lambd := if sarg_enable_denoise a then float_0_9 else float_0_1 |}.
Proof.
  unfold run, synthesize_ssml. unfold bind at 1. rewrite try_int_or_default.
  cbv beta iota zeta delta [bind lift ret raise emit try_except].
  destruct (String.eqb (strip (sarg_ssml a)) ""); [intros [] |].
  destruct (ssml_parse (strip (sarg_ssml a))) as [e | segments]; [intros [] |].
  destruct (Z.of_nat _ =? 0); [intros [] |].
  cbn [app].
  destruct (ssml_enqueue _) as [e | [sr au]]; cbn [fst];
    intros [[= <-] | []]; reflexivity.
Qed.

(** C6: [tts_generate] and [synthesize_ssml] alike, when the checks in
    front of it pass, build an [EnhancerConfig] and enqueue one request
    with it, in which the blend weight is [0.9] with the denoise flag,
    [0.1] with the enhance flag alone, and the enhancer is disabled with
    neither; and no request of either function carries another one. *)
Theorem enhancer_config_presets `{Externals} :
  let preset (enable_denoise enable_enhance : bool) (c : EnhancerConfig) :=
    (enable_denoise = true -> enabled c = true /\ lambd c = float_0_9) /\
    (enable_denoise = false -> enable_enhance = true ->
       enabled c = true /\ lambd c = float_0_1) /\
    (enable_denoise = false -> enable_enhance = false -> enabled c = false) in
  (forall a : tts_args,
     (text_given a -> top_k_converts a -> seed_clamps a -> speaker_accepted a ->
      exists h, fst (run (tts_generate a)) = [EnqueueTTS h] /\
        preset (arg_enable_denoise a) (arg_enable_enhance a)
               (enhancer_config h)) /\
     (forall h, In (EnqueueTTS h) (fst (run (tts_generate a))) ->
        preset (arg_enable_denoise a) (arg_enable_enhance a)
               (enhancer_config h))) /\
  (forall a : ssml_args,
     (ssml_accepted a ->
      exists h, fst (run (synthesize_ssml a)) = [EnqueueSSML h] /\
        preset (sarg_enable_denoise a) (sarg_enable_enhance a)
               (ssml_enhancer_config h)) /\
     (forall h, In (EnqueueSSML h) (fst (run (synthesize_ssml a))) ->
        preset (sarg_enable_denoise a) (sarg_enable_enhance a)
               (ssml_enhancer_config h))).
Proof.
  intros preset.
  assert (Hpreset : forall d e,
            preset d e {| enabled := d || e || false;
                          lambd := if d then float_0_9 else float_0_1 |}).
  { intros d e. unfold preset. cbn.
    repeat split; intros; subst; reflexivity. }
  split; intros a; split.
  - intros Htext [top_k Hk] [infer_seed Hs] Hspk.
    destruct (tts_generate_accepted a top_k infer_seed Htext Hk Hs Hspk)
      as [speaker Hrun].
    rewrite Hrun. eexists. split; [reflexivity |]. apply Hpreset.
  - intros h Hin.
    destruct (tts_generate_enqueued a h Hin)
      as (_ & _ & top_k & infer_seed & speaker & -> & _).
    apply Hpreset.
  - intros Hok. rewrite (synthesize_ssml_accepted a Hok).
    eexists. split; [reflexivity |]. apply Hpreset.
  - intros h Hin. rewrite (synthesize_ssml_enqueued a h Hin). apply Hpreset.
Qed.

(** [tts_generate("hello", enable_denoise=True)] enqueues a request that
    blends with [0.9]; [tts_generate("hello")] one with the enhancer
    disabled; and [synthesize_ssml("<speak>hi</speak>",
    enable_enhance=True)] one that blends with [0.1]. *)
Lemma enhancer_config_presets_witness :
  (exists h,
     fst (run (tts_generate (H := unstyled)
                 (tts_call_with "hello" (PyInt (-1)) false true)))
     = [EnqueueTTS h] /\
     enabled (enhancer_config h) = true /\
     lambd (enhancer_config h) = float_0_9) /\
  (exists h,
     fst (run (tts_generate (H := unstyled)
                 (tts_call_with "hello" (PyInt (-1)) false false)))
     = [EnqueueTTS h] /\
     enabled (enhancer_config h) = false) /\
  (exists h,
     fst (run (synthesize_ssml (H := unstyled)
                 (ssml_call_with "<speak>hi</speak>" true false)))
     = [EnqueueSSML h] /\
     enabled (ssml_enhancer_config h) = true /\
     lambd (ssml_enhancer_config h) = float_0_1).
Proof.
  destruct (enhancer_config_presets (H := unstyled)) as [Htts Hssml].
  assert (Hchecks : forall enhance denoise,
            let a := tts_call_with (H := unstyled) "hello" (PyInt (-1))
                       enhance denoise in
            text_given a /\ top_k_converts a /\ seed_clamps a /\
            speaker_accepted a).
  { intros enhance denoise a. split; [reflexivity |].
    split; [eexists; reflexivity |]. split; [eexists; reflexivity |].
    split; [discriminate | exact I]. }
  split; [| split].
  - destruct (Hchecks false true) as (Ht & Hk & Hs & Hspk).
    destruct (Htts (tts_call_with "hello" (PyInt (-1)) false true))
      as [Hbuilt _].
    destruct (Hbuilt Ht Hk Hs Hspk) as (h & Hrun & Hdenoise & _).
    exists h. split; [exact Hrun |]. exact (Hdenoise eq_refl).
  - destruct (Hchecks false false) as (Ht & Hk & Hs & Hspk).
    destruct (Htts (tts_call_with "hello" (PyInt (-1)) false false))
      as [Hbuilt _].
    destruct (Hbuilt Ht Hk Hs Hspk) as (h & Hrun & _ & _ & Hneither).
    exists h. split; [exact Hrun |]. exact (Hneither eq_refl eq_refl).
  - destruct (Hssml (ssml_call_with "<speak>hi</speak>" true false))
      as [Hbuilt _].
    destruct Hbuilt as (h & Hrun & _ & Henhance & _).
    { split; [discriminate |].
      eexists _, _. split; [reflexivity |].
      intros t attrs [= <- _]. vm_compute. discriminate. }
    exists h. split; [exact Hrun |]. exact (Henhance eq_refl eq_refl).
Defined.

(** Both functions do enqueue a request with each preset. *)
Example enhancer_config_samples :
  let a (enhance denoise : bool) :=
    {| sarg_ssml := "<speak>hi</speak>"; sarg_batch_size := PyInt 4;
       sarg_enable_enhance := enhance; sarg_enable_denoise := denoise;
       sarg_eos := PyStr "[uv_break]"; sarg_spliter_thr := PyInt 100;
       sarg_pitch := PyInt 0; sarg_speed_rate := PyInt 1;
       sarg_volume_gain_db := PyInt 0; sarg_normalize := PyBool true;
       sarg_headroom := PyInt 1 |} in
  (exists h, fst (run (synthesize_ssml (H := unstyled) (a true true))) = [EnqueueSSML h] /\
     ssml_enhancer_config h = {| enabled := true; lambd := float_0_9 |}) /\
  (exists h, fst (run (synthesize_ssml (H := unstyled) (a true false))) = [EnqueueSSML h] /\
     ssml_enhancer_config h = {| enabled := true; lambd := float_0_1 |}) /\
  (exists h, fst (run (synthesize_ssml (H := unstyled) (a false false))) = [EnqueueSSML h] /\
     enabled (ssml_enhancer_config h) = false).
Proof.
  intros a. repeat split; eexists; (split; [vm_compute; reflexivity | reflexivity]).
Qed.

(** ** Reference audio *)

(** C7: with a reference audio, a transcript that is [None] or blank ends
    the call with an exception and nothing enqueued, and, when the earlier
    checks pass, with [gr.Error("ref_audio_text is empty")]; with a
    transcript that is not blank, the speaker of the request is the one
    built from the encoded audio and the transcript, and the request is
    enqueued when the earlier checks pass. *)
Theorem tts_generate_reference_audio `{Externals} (a : tts_args)
    (ref_audio : Z * audio) :
  arg_ref_audio a = Some ref_audio ->
  (transcript_blank (arg_ref_audio_text a) = true ->
     exists e, run (tts_generate a) = ([], inl e) /\
       (reaches_reference_check a -> e = GrError "ref_audio_text is empty")) /\
  (forall t, arg_ref_audio_text a = Some t ->
     transcript_blank (Some t) = false ->
     (forall h, In (EnqueueTTS h) (fst (run (tts_generate a))) ->
        spk h = PySpk (from_ref_wav_bytes (encode_to_wav ref_audio) t)) /\
     (reaches_reference_check a ->
        exists h, fst (run (tts_generate a)) = [EnqueueTTS h] /\
          spk h = PySpk (from_ref_wav_bytes (encode_to_wav ref_audio) t))).
Proof.
  intros Hra. split.
  - intros Hblank. rewrite tts_generate_stages, Hra.
    unfold reaches_reference_check, reaches_speaker_check.
    destruct (String.eqb (request_text a) "");
      [eexists; split; [reflexivity |]; intros [[? _] _]; discriminate |].
    destruct (eff_top_k a) as [e | top_k];
      [eexists; split; [reflexivity |]; intros [(_ & [? ?] & _) _]; discriminate |].
    destruct (clamp_seed (coalesced_seed a)) as [e | infer_seed];
      [eexists; split; [reflexivity |]; intros [(_ & _ & [? ?]) _]; discriminate |].
    destruct (truthy (arg_spk_file a)).
    + destruct (from_file (arg_spk_file a)) as [e | s].
      * eexists; split; [reflexivity |]. intros [_ Hload].
        destruct (Hload eq_refl) as [? ?]. discriminate.
      * destruct (arg_ref_audio_text a) as [t |]; [| eauto].
        simpl in Hblank. rewrite Hblank. eauto.
    + destruct (arg_ref_audio_text a) as [t |]; [| eauto].
      simpl in Hblank. rewrite Hblank. eauto.
  - intros t Ht Hblank. simpl in Hblank. split.
    + intros h Hin.
      destruct (tts_generate_enqueued a h Hin)
        as (_ & _ & top_k & infer_seed & speaker & -> & _ & _ & _ & Hspk).
      rewrite Hra in Hspk. destruct Hspk as (t' & Ht' & _ & ->).
      cbn. congruence.
    + intros [(Htext & [top_k Hk] & [infer_seed Hs]) Hload].
      rewrite tts_generate_stages, Hra, Ht, Hblank, Htext, Hk, Hs.
      destruct (truthy (arg_spk_file a)).
      * destruct (Hload eq_refl) as [s ->]. eexists. split; reflexivity.
      * eexists. split; reflexivity.
Qed.

(** [tts_generate("hello", ref_audio=clip, ref_audio_text="  ")]: the
    earlier checks pass, and the call ends with the error of the blank
    transcript. *)
Lemma tts_generate_reference_audio_witness :
  let a := tts_call (H := unstyled) "hello" (PyFloat float_0_3) PyNone
             (Some a_clip) (Some "  ") in
  arg_ref_audio a = Some a_clip /\
  run (tts_generate (H := unstyled) a)
    = ([], inl (GrError "ref_audio_text is empty")).
Proof.
  intros a. split; [reflexivity |].
  destruct (tts_generate_reference_audio (H := unstyled) a a_clip eq_refl)
    as [Hblank _].
  destruct (Hblank eq_refl) as (e & Hrun & He).
  rewrite Hrun, He; [reflexivity |].
  repeat split; try (eexists; reflexivity); discriminate.
Defined.

(** With the transcript ["hi"] the same call enqueues a request whose
    speaker is built from the encoded clip and the transcript. *)
Example tts_generate_reference_audio_sample :
  let a := tts_call (H := unstyled) "hello" (PyFloat float_0_3) PyNone
             (Some a_clip) (Some "hi") in
  exists h, fst (run (tts_generate (H := unstyled) a)) = [EnqueueTTS h] /\
    spk h = PySpk (a_speaker "ref:hi").
Proof. intros a. eexists. split; [vm_compute; reflexivity | reflexivity]. Qed.

(** ** Speaker files *)

(** C9: [load_spk_info] never raises: it returns ["empty"] for [None], and
    when the speaker file fails to load it logs the failure and returns
    ["load failed"]; in [tts_generate] the same failure ends the call with
    an exception and nothing enqueued, and, when the earlier checks pass,
    with [gr.Error("Failed to load speaker file")]. *)
Theorem speaker_file_load_failure `{Externals} :
  (forall (file : pyval) (tr : list event),
     exists tr' info, load_spk_info file tr = (tr', inr info)) /\
  run (load_spk_info PyNone) = ([], inr "empty") /\
  (forall (file : pyval) (e : exn),
     file <> PyNone -> from_file file = inl e ->
     run (load_spk_info file)
     = ([LogError ("load spk info failed: " ++ exn_str e)], inr "load failed")) /\
  (forall (a : tts_args) (e : exn),
     truthy (arg_spk_file a) = true ->
     from_file (arg_spk_file a) = inl e ->
     exists e', run (tts_generate a) = ([], inl e') /\
       (reaches_speaker_check a ->
          e' = GrError "Failed to load speaker file")).
Proof.
  split; [| split; [| split]].
  - intros file tr.
    assert (Hload : exists tr' info,
               try_except
                 (let* spk := lift (from_file file) in
                  ret (strip (nl ++ "- name: " ++ spk_name spk ++ nl
                              ++ "- gender: " ++ spk_gender spk ++ nl
                              ++ "- describe: " ++ spk_desc spk ++ nl ++ "    ")))
                 (fun e =>
                    let* _ := emit (LogError ("load spk info failed: " ++ exn_str e)) in
                    ret "load failed") tr = (tr', inr info)).
    { unfold try_except, bind, lift, ret, emit.
      destruct (from_file file); eauto. }
    destruct file; try exact Hload. unfold load_spk_info, ret. eauto.
  - reflexivity.
  - intros file e Hfile Hfail.
    assert (Hrun : try_except
                 (let* spk := lift (from_file file) in
                  ret (strip (nl ++ "- name: " ++ spk_name spk ++ nl
                              ++ "- gender: " ++ spk_gender spk ++ nl
                              ++ "- describe: " ++ spk_desc spk ++ nl ++ "    ")))
                 (fun e =>
                    let* _ := emit (LogError ("load spk info failed: " ++ exn_str e)) in
                    ret "load failed") []
               = ([LogError ("load spk info failed: " ++ exn_str e)],
                  inr "load failed")).
    { unfold try_except, bind, lift, ret, emit. now rewrite Hfail. }
    destruct file; try exact Hrun. contradiction.
  - intros a e Htruthy Hfail. rewrite tts_generate_stages, Htruthy, Hfail.
    unfold reaches_speaker_check.
    destruct (String.eqb (request_text a) "");
      [eexists; split; [reflexivity |]; intros [? _]; discriminate |].
    destruct (eff_top_k a) as [e1 | top_k];
      [eexists; split; [reflexivity |]; intros (_ & [? ?] & _); discriminate |].
    destruct (clamp_seed (coalesced_seed a)) as [e2 | infer_seed];
      [eexists; split; [reflexivity |]; intros (_ & _ & [? ?]); discriminate |].
    eauto.
Qed.

(** A speaker file that does not load, in both paths; and one that loads. *)
Example speaker_file_samples :
  run (load_spk_info (H := unstyled) (PyStr "missing.json"))
    = ([LogError "load spk info failed: No such file"], inr "load failed") /\
  run (tts_generate (H := unstyled)
         (tts_call "hello" (PyFloat float_0_3) (PyStr "missing.json") None None))
    = ([], inl (GrError "Failed to load speaker file")) /\
  run (load_spk_info (H := unstyled) (PyStr "ok.json"))
    = ([], inr ("- name: from_file" ++ nl ++ "- gender: *" ++ nl ++ "- describe:")).
Proof. repeat split. Qed.

(** ** The text of a request *)

Lemma substring_0_empty (n : nat) (s : string) :
  String.substring 0 n s = "" <-> n = 0%nat \/ s = "".
Proof.
  destruct n as [| n], s as [| c s]; simpl; split; auto; try discriminate.
  intros [E | E]; discriminate E.
Qed.

Lemma substring_0_length (n : nat) (s : string) :
  String.length (String.substring 0 n s) = Nat.min n (String.length s).
Proof.
  revert s. induction n as [| n IH]; intros [| c s]; simpl; auto.
Qed.

Lemma substring_0_all (n : nat) (s : string) :
  (String.length s <= n)%nat -> String.substring 0 n s = s.
Proof.
  revert s. induction n as [| n IH]; intros [| c s]; simpl; intros Hn;
    try reflexivity; try lia.
  f_equal. apply IH. lia.
Qed.

Lemma substring_0_prefix (n : nat) (s : string) :
  String.prefix (String.substring 0 n s) s = true.
Proof.
  revert s. induction n as [| n IH]; intros [| c s]; simpl; auto.
  destruct (ascii_dec c c); [apply IH | contradiction].
Qed.

Lemma slice_to_positive (s : string) (n : Z) :
  0 <= n -> slice_to s n = String.substring 0 (Z.to_nat n) s.
Proof.
  intros Hn. unfold slice_to. destruct (Z.ltb_spec n 0); [lia | reflexivity].
Qed.

(** The exceptions of the conversions are not [gr.Error]s. *)
Lemma int_of_f64_error (x : f64) (e : exn) (msg : string) :
  int_of_f64 x = inl e -> e <> GrError msg.
Proof. destruct x; simpl; intros [= <-]; discriminate. Qed.

Lemma clamp_seed_error (v : pyval) (e : exn) (msg : string) :
  clamp_seed v = inl e -> e <> GrError msg.
Proof.
  unfold clamp_seed.
  destruct (np_clip_float64 v (-1) (2 ^ 32 - 1)) as [e' | x] eqn:Hclip.
  - intros [= <-]. unfold np_clip_float64 in Hclip.
    destruct v as [| b | z | f | t | k]; try discriminate Hclip.
    2: destruct ((- 2 ^ 63 <=? z) && (z <? 2 ^ 64)); [discriminate Hclip |].
    all: injection Hclip as <-; discriminate.
  - apply int_of_f64_error.
Qed.

Lemma eff_top_k_error `{Externals} (a : tts_args) (e : exn) (msg : string) :
  eff_top_k a = inl e -> e <> GrError msg.
Proof.
  unfold eff_top_k. destruct (arg_top_k a) as [| b | k | f | s | s];
    try discriminate.
  destruct (int_of_f64 (f64_of_float f)) eqn:E; [| discriminate].
  intros [= <-]. now apply int_of_f64_error with (x := f64_of_float f).
Qed.

(** C10, for a positive [webui_config.tts_max]: the call ends with
    [gr.Error("Text is empty, please input some text")] and nothing enqueued
    exactly when the stripped text is empty; a text that is not empty
    after stripping is never refused for its length: when the other
    checks of the call pass, one request is enqueued, whose text is the
    stripped text cut to its first [tts_max] characters; and the text of
    every enqueued request is that cut: the whole of the stripped text
    when it is no longer than [tts_max]. *)
Theorem tts_generate_truncates `{Externals} (a : tts_args) :
  0 < tts_max ->
  (run (tts_generate a)
     = ([], inl (GrError "Text is empty, please input some text"))
   <-> strip (arg_text a) = "") /\
  (strip (arg_text a) <> "" ->
   top_k_converts a -> seed_clamps a -> speaker_accepted a ->
   exists h, fst (run (tts_generate a)) = [EnqueueTTS h] /\
     text_content h
       = String.substring 0 (Z.to_nat tts_max) (strip (arg_text a)) /\
     len (text_content h) = Z.min tts_max (len (strip (arg_text a)))) /\
  (forall h, In (EnqueueTTS h) (fst (run (tts_generate a))) ->
     text_content h
       = String.substring 0 (Z.to_nat tts_max) (strip (arg_text a)) /\
     String.prefix (text_content h) (strip (arg_text a)) = true /\
     len (text_content h) = Z.min tts_max (len (strip (arg_text a))) /\
     (len (strip (arg_text a)) <= tts_max ->
        text_content h = strip (arg_text a))).
Proof.
  intros Hmax.
  assert (Htext : request_text a
                  = String.substring 0 (Z.to_nat tts_max) (strip (arg_text a))).
  { unfold request_text. apply slice_to_positive. lia. }
  assert (Hempty : request_text a = "" <-> strip (arg_text a) = "").
  { rewrite Htext, substring_0_empty. split; [intros [E | E] | auto]; [lia | auto]. }
  split; [| split].
  - rewrite tts_generate_stages.
    destruct (String.eqb_spec (request_text a) "") as [E | E].
    { split; [intros _; now apply Hempty | reflexivity]. }
    split; [| intros E'; apply Hempty in E'; contradiction].
    intros Hrun. exfalso.
    destruct (eff_top_k a) as [e | top_k] eqn:Hk.
    { injection Hrun as Hrun. exact (eff_top_k_error a e _ Hk Hrun). }
    destruct (clamp_seed (coalesced_seed a)) as [e | infer_seed] eqn:Hs.
    { injection Hrun as Hrun. exact (clamp_seed_error _ e _ Hs Hrun). }
    destruct (truthy (arg_spk_file a));
      [destruct (from_file (arg_spk_file a)); [discriminate Hrun |] |].
    all: destruct (arg_ref_audio a) as [ra |];
      [destruct (arg_ref_audio_text a) as [transcript |];
       [destruct (String.eqb (strip transcript) "") |] |];
      discriminate Hrun.
  - intros Hne [top_k Hk] [infer_seed Hs] Hspk.
    assert (Hgiven : text_given a).
    { unfold text_given. apply String.eqb_neq. intros E.
      apply Hempty in E. contradiction. }
    destruct (tts_generate_accepted a top_k infer_seed Hgiven Hk Hs Hspk)
      as [speaker Hrun].
    rewrite Hrun. eexists. split; [reflexivity |].
    cbn [text_content tts_handler]. rewrite Htext.
    split; [reflexivity |].
    unfold len. rewrite substring_0_length. lia.
  - intros h Hin.
    destruct (tts_generate_enqueued a h Hin)
      as (_ & _ & top_k & infer_seed & speaker & -> & _).
    cbn [text_content tts_handler]. rewrite Htext.
    split; [reflexivity |]. split; [apply substring_0_prefix |].
    split.
    + unfold len. rewrite substring_0_length. lia.
    + unfold len. intros Hlen. apply substring_0_all. lia.
Qed.

(** [tts_generate("  hello  ")] under the limit [3] is not refused: it
    enqueues one request, whose text is ["hel"]; [tts_generate("   ")] is
    refused. *)
Lemma tts_generate_truncates_witness :
  0 < @tts_max (sample_externals 3 ∅) /\
  (exists h,
     fst (run (tts_generate (H := sample_externals 3 ∅)
                 (tts_defaults "  hello  ")))
     = [EnqueueTTS h] /\
     text_content h = "hel" /\ len (text_content h) = 3) /\
  (run (tts_generate (H := sample_externals 3 ∅) (tts_defaults "   "))
     = ([], inl (GrError "Text is empty, please input some text"))).
Proof.
  assert (Hmax : 0 < @tts_max (sample_externals 3 ∅)) by (simpl; lia).
  split; [exact Hmax |].
  destruct (tts_generate_truncates (H := sample_externals 3 ∅)
              (tts_defaults "  hello  ") Hmax) as (_ & Hcut & _).
  destruct (tts_generate_truncates (H := sample_externals 3 ∅)
              (tts_defaults "   ") Hmax) as ((_ & Hempty) & _).
  split.
  - destruct Hcut as (h & Hrun & Htext & Hlen).
    + discriminate.
    + eexists; reflexivity.
    + eexists; reflexivity.
    + split; [discriminate | exact I].
    + exists h. split; [exact Hrun |]. split.
      * rewrite Htext. reflexivity.
      * rewrite Hlen. reflexivity.
  - apply Hempty. reflexivity.
Defined.

(** With the limit [0] every text is cut to nothing, and refused. *)
Example tts_generate_zero_limit :
  run (tts_generate (H := zero_limit) (tts_defaults "hello"))
    = ([], inl (GrError "Text is empty, please input some text")).
Proof. reflexivity. Qed.

(** * Further properties of the code *)

(** ** segments_length_limit: how the result depends on the budget *)

(** The result is the only split of the segments into texts that fit and a
    rest that is empty or starts with a text that does not. *)
Lemma limit_unique (segments kept dropped : list segment) (total_max : Z) :
  segments = (kept ++ dropped)%list ->
  (forall p t a q, kept = (p ++ SSMLSegment t a :: q)%list ->
     text_len p + len t <= total_max) ->
  (dropped = [] \/
   exists t a rest, dropped = SSMLSegment t a :: rest /\
     text_len kept + len t > total_max) ->
  segments_length_limit segments total_max = kept.
Proof.
  intros Hsplit Hfit Hstop.
  destruct (limit_loop_spec total_max segments [] 0)
    as (kept' & dropped' & Hsplit' & Hrun & Hfit' & Hstop').
  unfold segments_length_limit. rewrite Hrun. simpl.
  rewrite Hsplit in Hsplit'. simpl in Hfit', Hstop'.
  apply app_eq_app in Hsplit' as [l [[Hk Hd] | [Hk Hd]]].
  - destruct l as [| x l]; [now rewrite app_nil_r in Hk |]. exfalso.
    destruct Hstop' as [-> | (t & a & rest & -> & Hover)]; [discriminate Hd |].
    injection Hd as <- _. specialize (Hfit kept' t a l Hk). lia.
  - destruct l as [| x l]; [now rewrite app_nil_r in Hk |]. exfalso.
    destruct Hstop as [-> | (t & a & rest & -> & Hover)]; [discriminate Hd |].
    injection Hd as <- _. specialize (Hfit' kept t a l Hk). lia.
Qed.

Lemma text_len_zero_without_text (l : list segment) :
  (forall t a, ~ In (SSMLSegment t a) l) -> text_len l = 0.
Proof.
  induction l as [| [d | t a] l IH]; intros Hno; simpl; [reflexivity | |].
  - apply IH. intros t a Hin. apply (Hno t a). now right.
  - exfalso. apply (Hno t a). now left.
Qed.

(** A list of segments with no text, or with a last text. *)
Lemma last_text_or_none (l : list segment) :
  (forall t a, ~ In (SSMLSegment t a) l) \/
  exists p t a q, l = (p ++ SSMLSegment t a :: q)%list /\
    text_len l = text_len p + len t.
Proof.
  induction l as [| [d | t a] l IH].
  - left. intros t a [].
  - destruct IH as [Hno | (p & t & a & q & -> & Hlen)].
    + left. intros t a [Hd | Hin]; [discriminate Hd | exact (Hno t a Hin)].
    + right. exists (SSMLBreak d :: p), t, a, q. split; [reflexivity |].
      simpl. exact Hlen.
  - right. destruct IH as [Hno | (p & t' & a' & q & -> & Hlen)].
    + exists [], t, a, l. split; [reflexivity |]. simpl.
      rewrite (text_len_zero_without_text l Hno). lia.
    + exists (SSMLSegment t a :: p), t', a', q. split; [reflexivity |].
      simpl. lia.
Qed.

(** X1: [segments_length_limit] returns the segments unchanged exactly when
    their texts fit the budget as a whole, or when there is no text among
    them (a list of breaks passes under every budget, a negative one
    included). *)
Theorem segments_length_limit_unchanged (segments : list segment) (total_max : Z) :
  segments_length_limit segments total_max = segments <->
  text_len segments <= total_max \/
  (forall t a, ~ In (SSMLSegment t a) segments).
Proof.
  split.
  - intros Hsame.
    destruct (limit_loop_spec total_max segments [] 0)
      as (kept & dropped & Hsplit & Hrun & Hfit & _).
    unfold segments_length_limit in Hsame. rewrite Hrun in Hsame.
    simpl in Hsame, Hfit. subst kept.
    destruct (last_text_or_none segments) as [Hno | (p & t & a & q & Hs & Hl)].
    + now right.
    + left. rewrite Hl. exact (Hfit _ _ _ _ Hs).
  - intros Hfits. apply limit_unique with (dropped := []).
    + now rewrite app_nil_r.
    + intros p t a q Hs. destruct Hfits as [Hle | Hno].
      * rewrite Hs, text_len_app in Hle. simpl in Hle.
        pose proof (text_len_nonneg q). lia.
      * exfalso. apply (Hno t a). rewrite Hs. apply in_elt.
    + now left.
Qed.

(** X2: limiting twice is limiting once with the smaller budget; in
    particular [segments_length_limit] is idempotent. *)
Theorem segments_length_limit_twice (segments : list segment) (m1 m2 : Z) :
  segments_length_limit (segments_length_limit segments m1) m2
  = segments_length_limit segments (Z.min m1 m2) /\
  segments_length_limit (segments_length_limit segments m1) m1
  = segments_length_limit segments m1.
Proof.
  assert (Hmin : forall a b,
             segments_length_limit (segments_length_limit segments a) b
             = segments_length_limit segments (Z.min a b)).
  { intros a b.
    destruct (limit_loop_spec a segments [] 0)
      as (ka & da & Hsa & Hra & Hfa & Hsta).
    destruct (limit_loop_spec (Z.min a b) segments [] 0)
      as (kb & db & Hsb & Hrb & Hfb & Hstb).
    unfold segments_length_limit at 2 3. rewrite Hra, Hrb.
    simpl in *.
    (* [kb] is a prefix of [ka] *)
    assert (Hpre : exists l, ka = (kb ++ l)%list /\ db = (l ++ da)%list).
    { rewrite Hsa in Hsb.
      apply app_eq_app in Hsb as [l [[Hk Hd] | [Hk Hd]]].
      - exists l. split; assumption.
      - destruct l as [| x l].
        + exists []. rewrite app_nil_r in Hk. simpl in Hd. subst.
          split; [now rewrite app_nil_r | reflexivity].
        + exfalso.
          destruct Hsta as [-> | (t & c & rest & -> & Hover)];
            [discriminate Hd |].
          injection Hd as <- _. specialize (Hfb ka t c l Hk). lia. }
    destruct Hpre as (l & Hka & Hdb).
    apply limit_unique with (dropped := l).
    - exact Hka.
    - intros p t c q Hk. specialize (Hfb p t c q Hk). lia.
    - destruct l as [| x l]; [now left | right].
      destruct Hstb as [-> | (t & c & rest & -> & Hover)];
        [discriminate Hdb |].
      injection Hdb as <- _.
      assert (Hfit : text_len kb + len t <= a).
      { apply (Hfa kb t c l). exact Hka. }
      exists t, c, l. split; [reflexivity |]. lia. }
  split; [apply Hmin |]. rewrite Hmin. now rewrite Z.min_id.
Qed.

(** X3: a larger budget keeps what a smaller budget keeps, and may add
    segments behind it. *)
Theorem segments_length_limit_monotone (segments : list segment) (m1 m2 : Z) :
  m1 <= m2 ->
  exists more,
    segments_length_limit segments m2
    = (segments_length_limit segments m1 ++ more)%list.
Proof.
  intros Hle.
  destruct (limit_loop_spec m1 segments [] 0)
    as (k1 & d1 & Hs1 & Hr1 & Hf1 & Hst1).
  destruct (limit_loop_spec m2 segments [] 0)
    as (k2 & d2 & Hs2 & Hr2 & Hf2 & Hst2).
  unfold segments_length_limit. rewrite Hr1, Hr2. simpl in *.
  rewrite Hs1 in Hs2.
  apply app_eq_app in Hs2 as [l [[Hk Hd] | [Hk Hd]]].
  - destruct l as [| x l].
    + exists []. now rewrite app_nil_r in *.
    + exfalso.
      destruct Hst2 as [-> | (t & c & rest & -> & Hover)]; [discriminate Hd |].
      injection Hd as <- _. specialize (Hf1 k2 t c l Hk). lia.
  - exists l. exact Hk.
Qed.

(** The budgets [3] and [10] on the same segments. *)
Lemma segments_length_limit_monotone_witness :
  3 <= 10 /\
  exists more,
    segments_length_limit
      [SSMLSegment "abc" ∅; SSMLBreak 200; SSMLSegment "defg" ∅] 10
    = (segments_length_limit
         [SSMLSegment "abc" ∅; SSMLBreak 200; SSMLSegment "defg" ∅] 3
       ++ more)%list.
Proof.
  split; [lia |].
  apply (segments_length_limit_monotone
           [SSMLSegment "abc" ∅; SSMLBreak 200; SSMLSegment "defg" ∅] 3 10).
  lia.
Defined.

(** X4: nothing is kept exactly when there is no segment, or when the
    first segment is a text that alone is over the budget; in every other
    case the result starts with the first segment. *)
Theorem segments_length_limit_nothing (segments : list segment) (total_max : Z) :
  (segments_length_limit segments total_max = [] <->
   segments = [] \/
   exists t a rest, segments = SSMLSegment t a :: rest /\ len t > total_max) /\
  (forall seg rest, segments = seg :: rest ->
     segments_length_limit segments total_max <> [] ->
     exists kept, segments_length_limit segments total_max = seg :: kept).
Proof.
  split; [apply limit_nothing |].
  intros seg rest Hseg Hsome.
  destruct (limit_loop_spec total_max segments [] 0)
    as (kept & dropped & Hsplit & Hrun & _).
  unfold segments_length_limit in *. rewrite Hrun in *. simpl in *.
  destruct kept as [| x kept]; [contradiction |].
  rewrite Hseg in Hsplit. injection Hsplit as -> _. eauto.
Qed.

(** ** synthesize_ssml: what is refused, and what is enqueued *)

(** X5: [synthesize_ssml] refuses, with nothing enqueued, an SSML that is
    blank ([gr.Error("SSML is empty, ...")]), an SSML the parser refuses
    (the parser's exception, uncaught), and an SSML with no segment or
    whose first segment is a text longer than [webui_config.ssml_max]
    ([gr.Error("No valid segments in SSML")]). *)
Theorem synthesize_ssml_refuses `{Externals} (a : ssml_args) :
  (strip (sarg_ssml a) = "" ->
     run (synthesize_ssml a)
     = ([], inl (GrError "SSML is empty, please input some SSML"))) /\
  (forall e, strip (sarg_ssml a) <> "" ->
     ssml_parse (strip (sarg_ssml a)) = inl e ->
     run (synthesize_ssml a) = ([], inl e)) /\
  (forall segments, strip (sarg_ssml a) <> "" ->
     ssml_parse (strip (sarg_ssml a)) = inr segments ->
     (segments = [] \/
      exists t attrs rest,
        segments = SSMLSegment t attrs :: rest /\ len t > ssml_max) ->
     run (synthesize_ssml a) = ([], inl (GrError "No valid segments in SSML"))).
Proof.
  rewrite synthesize_ssml_stages. repeat split.
  - intros ->. reflexivity.
  - intros e Hne ->. destruct (String.eqb_spec (strip (sarg_ssml a)) "");
      [contradiction | reflexivity].
  - intros segments Hne -> Hnone.
    destruct (String.eqb_spec (strip (sarg_ssml a)) ""); [contradiction |].
    apply limit_nothing in Hnone. now rewrite Hnone.
Qed.

(** X6: [synthesize_ssml] enqueues a request exactly when the stripped
    SSML is not empty, parses, and starts with a break or with a text
    within [webui_config.ssml_max]; the request then carries the whole
    stripped SSML, whatever the budget cut from the segments, with no seed
    and, when [int(batch_size)] fails, the batch size [8]. *)
Theorem synthesize_ssml_accepts `{Externals} (a : ssml_args) :
  ((exists h, In (EnqueueSSML h) (fst (run (synthesize_ssml a)))) <->
   strip (sarg_ssml a) <> "" /\
   exists seg rest,
     ssml_parse (strip (sarg_ssml a)) = inr (seg :: rest) /\
     (forall t attrs, seg = SSMLSegment t attrs -> len t <= ssml_max)) /\
  (forall h, In (EnqueueSSML h) (fst (run (synthesize_ssml a))) ->
     fst (run (synthesize_ssml a)) = [EnqueueSSML h] /\
     ssml_content h = strip (sarg_ssml a) /\
     seed (ssml_infer_config h) = None /\
     (forall n, py_int (sarg_batch_size a) = inr n ->
        batch_size (ssml_infer_config h) = n) /\
     (forall e, py_int (sarg_batch_size a) = inl e ->
        batch_size (ssml_infer_config h) = 8)).
Proof.
  rewrite synthesize_ssml_stages. split.
  - destruct (String.eqb_spec (strip (sarg_ssml a)) "") as [E | E].
    { split; [intros [h []] | intros [Hne _]; contradiction]. }
    destruct (ssml_parse (strip (sarg_ssml a))) as [e | segments].
    { split; [intros [h []] | intros (_ & seg & rest & Hp & _); discriminate]. }
    destruct (segments_length_limit segments ssml_max) as [| k kept] eqn:Hlim.
    + split; [intros [h []] |]. intros (_ & seg & rest & [= ->] & Hfit).
      exfalso. apply limit_nothing in Hlim.
      destruct Hlim as [Hnil | (t & attrs & r & [= -> ->] & Hover)];
        [discriminate |].
      specialize (Hfit t attrs eq_refl). lia.
    + split; [intros _ | intros _; eexists; left; reflexivity].
      split; [exact E |].
      destruct segments as [| seg rest].
      { discriminate Hlim. }
      exists seg, rest. split; [reflexivity |]. intros t attrs ->.
      destruct (Z.le_gt_cases (len t) ssml_max) as [Hle | Hgt]; [exact Hle |].
      exfalso.
      assert (Hnone : segments_length_limit (SSMLSegment t attrs :: rest) ssml_max = []).
      { apply limit_nothing. right. exists t, attrs, rest.
        split; [reflexivity | lia]. }
      rewrite Hnone in Hlim. discriminate Hlim.
  - intros h.
    destruct (String.eqb (strip (sarg_ssml a)) ""); [intros [] |].
    destruct (ssml_parse (strip (sarg_ssml a))) as [e | segments]; [intros [] |].
    destruct (segments_length_limit segments ssml_max) as [| k kept];
      [intros [] |].
    unfold ssml_enqueue_and_convert. cbn [fst].
    intros [[= <-] | []]. split; [reflexivity |].
    unfold ssml_handler. cbn.
    repeat split; intros ? E; rewrite E; reflexivity.
Qed.

(** ** What the two entry points return *)

(** X7: [tts_generate] and [synthesize_ssml] return audio only after one
    request, and only that one, was enqueued: the sample rate of the
    handler and its audio converted by [audio_to_int16]; an exception of
    the handler ends the call as it is, uncaught. *)
Theorem entry_points_return `{Externals} :
  (forall (a : tts_args) (h : TTSHandler),
     In (EnqueueTTS h) (fst (run (tts_generate a))) ->
     fst (run (tts_generate a)) = [EnqueueTTS h] /\
     snd (run (tts_generate a))
     = match tts_enqueue h with
       | inr (sample_rate, audio_data) =>
           inr (sample_rate, audio_to_int16 audio_data)
       | inl e => inl e
       end) /\
  (forall (a : tts_args) (r : Z * audio),
     snd (run (tts_generate a)) = inr r ->
     exists h audio_data,
       fst (run (tts_generate a)) = [EnqueueTTS h] /\
       tts_enqueue h = inr (fst r, audio_data) /\
       snd r = audio_to_int16 audio_data) /\
  (forall (a : ssml_args) (h : SSMLHandler),
     In (EnqueueSSML h) (fst (run (synthesize_ssml a))) ->
     fst (run (synthesize_ssml a)) = [EnqueueSSML h] /\
     snd (run (synthesize_ssml a))
     = match ssml_enqueue h with
       | inr (sample_rate, audio_data) =>
           inr (sample_rate, audio_to_int16 audio_data)
       | inl e => inl e
       end) /\
  (forall (a : ssml_args) (r : Z * audio),
     snd (run (synthesize_ssml a)) = inr r ->
     exists h audio_data,
       fst (run (synthesize_ssml a)) = [EnqueueSSML h] /\
       ssml_enqueue h = inr (fst r, audio_data) /\
       snd r = audio_to_int16 audio_data).
Proof.
  assert (Htts : forall (a : tts_args) top_k infer_seed speaker,
             let h := tts_handler a top_k infer_seed speaker in
             (forall h', In (EnqueueTTS h') (fst (enqueue_and_convert h)) ->
                fst (enqueue_and_convert h) = [EnqueueTTS h'] /\
                snd (enqueue_and_convert h)
                = match tts_enqueue h' with
                  | inr (sr, au) => inr (sr, audio_to_int16 au)
                  | inl e => inl e
                  end) /\
             (forall r, snd (enqueue_and_convert h) = inr r ->
                exists h' au, fst (enqueue_and_convert h) = [EnqueueTTS h'] /\
                  tts_enqueue h' = inr (fst r, au) /\
                  snd r = audio_to_int16 au)).
  { intros a top_k infer_seed speaker h. unfold enqueue_and_convert. cbn [fst snd].
    split.
    - intros h' [[= <-] | []]. split; reflexivity.
    - intros r Hr. destruct (tts_enqueue h) as [e | [sr au]] eqn:E;
        [discriminate Hr |].
      injection Hr as <-. exists h, au. repeat split. exact E. }
  split; [| split; [| split]].
  - intros a h. rewrite tts_generate_stages.
    destruct (String.eqb (request_text a) ""); [intros [] |].
    destruct (eff_top_k a) as [e | top_k]; [intros [] |].
    destruct (clamp_seed (coalesced_seed a)) as [e | infer_seed]; [intros [] |].
    destruct (if truthy (arg_spk_file a) then _ else _) as [e | speaker];
      [intros [] |].
    destruct (arg_ref_audio a) as [ra |].
    + destruct (arg_ref_audio_text a) as [t |]; [| intros []].
      destruct (String.eqb (strip t) ""); [intros [] |].
      apply (Htts a).
    + apply (Htts a).
  - intros a r. rewrite tts_generate_stages.
    destruct (String.eqb (request_text a) ""); [discriminate |].
    destruct (eff_top_k a) as [e | top_k]; [discriminate |].
    destruct (clamp_seed (coalesced_seed a)) as [e | infer_seed]; [discriminate |].
    destruct (if truthy (arg_spk_file a) then _ else _) as [e | speaker];
      [discriminate |].
    destruct (arg_ref_audio a) as [ra |].
    + destruct (arg_ref_audio_text a) as [t |]; [| discriminate].
      destruct (String.eqb (strip t) ""); [discriminate |].
      apply (Htts a).
    + apply (Htts a).
  - intros a h. rewrite synthesize_ssml_stages.
    destruct (String.eqb (strip (sarg_ssml a)) ""); [intros [] |].
    destruct (ssml_parse (strip (sarg_ssml a))) as [e | segments]; [intros [] |].
    destruct (segments_length_limit segments ssml_max); [intros [] |].
    unfold ssml_enqueue_and_convert. cbn [fst snd].
    intros [[= <-] | []]. split; reflexivity.
  - intros a r. rewrite synthesize_ssml_stages.
    destruct (String.eqb (strip (sarg_ssml a)) ""); [discriminate |].
    destruct (ssml_parse (strip (sarg_ssml a))) as [e | segments]; [discriminate |].
    destruct (segments_length_limit segments ssml_max); [discriminate |].
    unfold ssml_enqueue_and_convert. cbn [fst snd]. intros Hr.
    destruct (ssml_enqueue (ssml_handler a)) as [e | [sr au]] eqn:E;
      [discriminate Hr |].
    injection Hr as <-. exists (ssml_handler a), au. repeat split. exact E.
Qed.

(** ** The text, the speaker and top_k of a request of tts_generate *)

Lemma lstrip_head (s : string) :
  lstrip s = "" \/ exists c r, lstrip s = String c r /\ isspace c = false.
Proof.
  induction s as [| c s IH]; simpl; [now left |].
  destruct (isspace c) eqn:E; [exact IH | right; eauto].
Qed.

Lemma rstrip_head (c : ascii) (s : string) :
  rstrip (String c s) = "" \/ exists r, rstrip (String c s) = String c r.
Proof.
  simpl. destruct (isspace c && String.eqb (rstrip s) ""); [now left | right; eauto].
Qed.

Lemma strip_head (s : string) :
  strip s = "" \/ exists c r, strip s = String c r /\ isspace c = false.
Proof.
  unfold strip. destruct (lstrip_head s) as [-> | (c & r & -> & Hc)];
    [now left |].
  destruct (rstrip_head c r) as [-> | [r' ->]]; [now left | right; eauto].
Qed.

Lemma slice_to_head (c : ascii) (s : string) (n : Z) :
  slice_to (String c s) n = "" \/ exists r, slice_to (String c s) n = String c r.
Proof.
  unfold slice_to. destruct (Z.to_nat _); simpl; [now left | right; eauto].
Qed.

Lemma slice_to_prefix (s : string) (n : Z) : String.prefix (slice_to s n) s = true.
Proof. unfold slice_to. apply substring_0_prefix. Qed.

(** X8: whatever [webui_config.tts_max] is, the text of a request of
    [tts_generate] is not empty, starts with a character that is not
    white space, and is a prefix of the stripped input. *)
Theorem tts_generate_text_shape `{Externals} (a : tts_args) (h : TTSHandler) :
  In (EnqueueTTS h) (fst (run (tts_generate a))) ->
  text_content h <> "" /\
  (exists c r, text_content h = String c r /\ isspace c = false) /\
  String.prefix (text_content h) (strip (arg_text a)) = true.
Proof.
  intros Hin.
  destruct (tts_generate_enqueued a h Hin)
    as (_ & Htext & top_k & infer_seed & speaker & -> & _).
  cbn [text_content tts_handler]. apply String.eqb_neq in Htext.
  split; [exact Htext |]. split; [| apply slice_to_prefix].
  unfold request_text in *.
  destruct (strip_head (arg_text a)) as [E | (c & r & E & Hc)]; rewrite E in *.
  - exfalso. apply Htext. unfold slice_to. now destruct (Z.to_nat _).
  - destruct (slice_to_head c r tts_max) as [E' | [r' E']];
      [contradiction | eauto].
Qed.

(** [tts_generate("  hello  ")] under the limit [3]. *)
Lemma tts_generate_text_shape_witness :
  In (EnqueueTTS cut_request)
     (fst (run (tts_generate (H := sample_externals 3 ∅) (tts_defaults "  hello  ")))) /\
  text_content cut_request <> "".
Proof.
  assert (Hin : In (EnqueueTTS cut_request)
                  (fst (run (tts_generate (H := sample_externals 3 ∅)
                               (tts_defaults "  hello  "))))).
  { vm_compute. left. reflexivity. }
  split; [exact Hin |].
  exact (proj1 (tts_generate_text_shape (H := sample_externals 3 ∅) _ _ Hin)).
Defined.

(** X9: the handler of [tts_generate] never gets a bare [int] as speaker;
    without a reference audio, a speaker file that is given is the
    speaker, and otherwise the speaker is the one of the style whenever
    the style has the key ["spk"] (whatever its value), else the caller's,
    an [int] being turned into the speaker of that seed. *)
Theorem tts_generate_speaker `{Externals} (a : tts_args) (h : TTSHandler) :
  In (EnqueueTTS h) (fst (run (tts_generate a))) ->
  as_int (spk h) = None /\
  (arg_ref_audio a = None -> truthy (arg_spk_file a) = true ->
     exists s, from_file (arg_spk_file a) = inr s /\ spk h = PySpk s) /\
  (arg_ref_audio a = None -> truthy (arg_spk_file a) = false ->
     forall chosen,
       chosen = match style_params a !! "spk" with
                | Some v => v
                | None => arg_spk a
                end ->
       spk h = match as_int chosen with
               | Some n => PySpk (create_speaker_from_seed n)
               | None => chosen
               end).
Proof.
  intros Hin.
  destruct (tts_generate_enqueued a h Hin)
    as (_ & _ & top_k & infer_seed & speaker & -> & _ & _ & Hfile & Hspk).
  cbn [spk tts_handler].
  assert (Hseed : as_int (seed_speaker a) = None).
  { unfold seed_speaker.
    destruct (as_int (dict_get (style_params a) "spk" (arg_spk a))) eqn:E;
      [reflexivity | exact E]. }
  split; [| split].
  - destruct (arg_ref_audio a) as [ra |].
    + destruct Hspk as (t & _ & _ & ->). reflexivity.
    + destruct (truthy (arg_spk_file a)).
      * destruct Hspk as (s & _ & ->). reflexivity.
      * now subst speaker.
  - intros Hra Htruthy. rewrite Hra, Htruthy in Hspk. exact Hspk.
  - intros Hra Htruthy chosen ->. rewrite Hra, Htruthy in Hspk. subst speaker.
    unfold seed_speaker, dict_get.
    destruct (style_params a !! "spk"); reflexivity.
Qed.

(** The default call: the speaker of the seed [-1]. *)
Lemma tts_generate_speaker_witness :
  In (EnqueueTTS styled_request)
     (fst (run (tts_generate (H := styled) (tts_defaults "hello")))) /\
  as_int (spk styled_request) = None.
Proof.
  assert (Hin : In (EnqueueTTS styled_request)
                  (fst (run (tts_generate (H := styled) (tts_defaults "hello"))))).
  { vm_compute. left. reflexivity. }
  split; [exact Hin |].
  exact (proj1 (tts_generate_speaker (H := styled) _ _ Hin)).
Defined.

(** X10: [top_k] reaches the handler as it was given unless it is a
    [float], which is truncated to an [int]; a [float] that is a NaN or an
    infinity ends the call, once the text is accepted, with the
    [ValueError] or [OverflowError] of [int], nothing enqueued. *)
Theorem tts_generate_top_k `{Externals} (a : tts_args) :
  (forall h, In (EnqueueTTS h) (fst (run (tts_generate a))) ->
     (forall f, top_k (tts_config h) <> Some (PyFloat f)) /\
     (forall f, arg_top_k a = PyFloat f ->
        exists k, int_of_f64 (f64_of_float f) = inr k /\
          top_k (tts_config h) = Some (PyInt k)) /\
     ((forall f, arg_top_k a <> PyFloat f) ->
        top_k (tts_config h) = Some (arg_top_k a))) /\
  (forall f, arg_top_k a = PyFloat f -> request_text a <> "" ->
     (f64_of_float f = F64_nan ->
        run (tts_generate a)
        = ([], inl (ValueError "cannot convert float NaN to integer"))) /\
     (forall neg, f64_of_float f = F64_inf neg ->
        run (tts_generate a)
        = ([], inl (OverflowError "cannot convert float infinity to integer")))).
Proof.
  split.
  - intros h Hin.
    destruct (tts_generate_enqueued a h Hin)
      as (_ & _ & tk & infer_seed & speaker & -> & Hk & _).
    cbn [top_k tts_config tts_handler]. unfold eff_top_k in Hk.
    split; [| split].
    + intros f [= ->].
      destruct (arg_top_k a); try discriminate Hk.
      destruct (int_of_f64 _); discriminate Hk.
    + intros f Hf. rewrite Hf in Hk.
      destruct (int_of_f64 (f64_of_float f)) as [e | k]; [discriminate Hk |].
      injection Hk as <-. eauto.
    + intros Hnf. destruct (arg_top_k a) as [| b | k | f | s | s];
        try (injection Hk as <-; reflexivity).
      exfalso. now apply (Hnf f).
  - intros f Hf Htext. rewrite tts_generate_stages.
    apply String.eqb_neq in Htext. rewrite Htext. unfold eff_top_k. rewrite Hf.
    split; [intros -> | intros neg ->]; reflexivity.
Qed.

(** ** Seeds that arrive as floats *)

Lemma f64_eqb_fin_int (m e z : Z) :
  f64_eqb (F64_fin m e) (F64_fin z 0)
  = if 0 <=? e then m * 2 ^ e =? z else m =? z * 2 ^ (- e).
Proof.
  unfold f64_eqb. destruct (Z.leb_spec 0 e) as [He | He].
  - rewrite Z.min_r by lia. rewrite !Z.sub_0_r, Z.shiftl_0_r.
    now rewrite Z.shiftl_mul_pow2 by lia.
  - rewrite Z.min_l by lia. rewrite Z.sub_diag, Z.shiftl_0_r, Z.sub_0_l.
    now rewrite Z.shiftl_mul_pow2 by lia.
Qed.

(** A binary64 value equal to an integer of the range of seeds is clipped
    to itself and truncated to that integer. *)
Lemma clip_then_int_whole (x : f64) (z : Z) :
  f64_eqb x (F64_fin z 0) = true -> -1 <= z <= 2 ^ 32 - 1 ->
  int_of_f64 (np_minimum (np_maximum x seed_lo) seed_hi) = inr z.
Proof.
  intros Heq Hz. destruct x as [| neg | m e]; try discriminate Heq.
  rewrite f64_eqb_fin_int in Heq.
  assert (Hp : 0 < 2 ^ Z.abs e) by (apply Z.pow_pos_nonneg; lia).
  assert (Hlo : f64_ltb (F64_fin m e) seed_lo = false).
  { unfold seed_lo. rewrite f64_ltb_fin_int.
    destruct (Z.leb_spec 0 e); apply Z.eqb_eq in Heq; apply Z.ltb_ge.
    - lia.
    - replace (Z.abs e) with (- e) in Hp by lia. nia. }
  assert (Hhi : f64_ltb seed_hi (F64_fin m e) = false).
  { unfold seed_hi. rewrite f64_ltb_int_fin.
    destruct (Z.leb_spec 0 e); apply Z.eqb_eq in Heq; apply Z.ltb_ge.
    - lia.
    - replace (Z.abs e) with (- e) in Hp by lia. nia. }
  unfold np_maximum, np_minimum. cbn [f64_isnan seed_lo seed_hi].
  fold seed_lo seed_hi. rewrite Hlo. cbn [f64_isnan]. rewrite Hhi.
  unfold int_of_f64. f_equal.
  destruct (Z.leb_spec 0 e) as [He | He]; apply Z.eqb_eq in Heq.
  - now rewrite Z.shiftl_mul_pow2 by lia.
  - rewrite Heq. apply Z.quot_mul. replace (Z.abs e) with (- e) in Hp by lia. lia.
Qed.

(** X11: a [float] seed that is a whole number of [[-1, 2^32 - 1]], as a
    number widget sends it, resolves to that integer, as the [int] of the
    same value does; so does the seed of the request when the coalesced
    seed is such a float. *)
Theorem clamp_seed_whole_float `{Externals} (f : float) (z : Z) :
  f64_eqb (f64_of_float f) (F64_fin z 0) = true ->
  -1 <= z <= 2 ^ 32 - 1 ->
  clamp_seed (PyFloat f) = inr z /\
  clamp_seed (PyFloat f) = clamp_seed (PyInt z) /\
  (forall (a : tts_args) (h : TTSHandler),
     In (EnqueueTTS h) (fst (run (tts_generate a))) ->
     coalesced_seed a = PyFloat f ->
     seed (infer_config h) = Some z).
Proof.
  intros Heq Hz.
  assert (Hclamp : clamp_seed (PyFloat f) = inr z).
  { unfold clamp_seed, np_clip_float64.
    change (float64_of_int (-1)) with seed_lo.
    change (float64_of_int (2 ^ 32 - 1)) with seed_hi.
    now apply clip_then_int_whole. }
  split; [exact Hclamp |]. split.
  - rewrite Hclamp, clamp_seed_int by lia. f_equal. lia.
  - intros a h Hin Hseed.
    destruct (tts_generate_enqueued a h Hin)
      as (_ & _ & tk & infer_seed & speaker & -> & _ & Hs & _).
    cbn. rewrite Hseed, Hclamp in Hs. now injection Hs as <-.
Qed.

(** The float [42.0]. *)
Lemma clamp_seed_whole_float_witness :
  f64_eqb (f64_of_float 0x1.5p5) (F64_fin 42 0) = true /\
  clamp_seed (PyFloat 0x1.5p5) = inr 42.
Proof.
  split; [reflexivity |].
  apply (clamp_seed_whole_float (H := unstyled) 0x1.5p5 42); [reflexivity | lia].
Defined.

(** ** The listing of speakers *)

Lemma leb_refl (s : string) : String.leb s s = true.
Proof.
  destruct (String.leb_total s s) as [E | E]; exact E.
Qed.

Lemma leb_trans (s1 s2 s3 : string) :
  String.leb s1 s2 = true -> String.leb s2 s3 = true -> String.leb s1 s3 = true.
Proof.
  intros H12 H23. apply Is_true_true.
  apply (@transitivity _ String.le _ s1 s2 s3); apply Is_true_true; assumption.
Qed.

Section SortFacts.
Context {A : Type} (key : A -> string).

Local Abbreviation key_le := (fun x y : A => String.leb (key x) (key y) = true).

Lemma sort_insert_perm (x : A) (l : list A) :
  Permutation (sort_insert key x l) (x :: l).
Proof.
  induction l as [| y r IH]; simpl; [reflexivity |].
  destruct (String.leb (key x) (key y)); [reflexivity |].
  rewrite IH. apply perm_swap.
Qed.

Lemma sort_by_key_perm (l : list A) : Permutation (sort_by_key key l) l.
Proof.
  induction l as [| x r IH]; simpl; [reflexivity |].
  rewrite sort_insert_perm. now constructor.
Qed.

Lemma sort_insert_sorted (x : A) (l : list A) :
  StronglySorted key_le l -> StronglySorted key_le (sort_insert key x l).
Proof.
  induction 1 as [| y r Hsorted IH Hall]; simpl.
  - constructor; constructor.
  - destruct (String.leb (key x) (key y)) eqn:E.
    + constructor; [now constructor |]. constructor; [exact E |].
      eapply List.Forall_impl; [| exact Hall].
      intros z Hz. exact (leb_trans _ _ _ E Hz).
    + constructor; [exact IH |].
      apply (Permutation_Forall (Permutation_sym (sort_insert_perm x r))).
      constructor; [| exact Hall].
      destruct (String.leb_total (key x) (key y)) as [E' | E'];
        [congruence | exact E'].
Qed.

Lemma sort_by_key_sorted (l : list A) : StronglySorted key_le (sort_by_key key l).
Proof.
  induction l as [| x r IH]; simpl; [constructor | now apply sort_insert_sorted].
Qed.

(** Stability: elements that share their key keep their order. *)
Lemma sort_by_key_stable (P : A -> bool) (l : list A) :
  (forall x y, P x = true -> P y = true -> key x = key y) ->
  List.filter P (sort_by_key key l) = List.filter P l.
Proof.
  intros Hkey.
  assert (Hins : forall x r,
             List.filter P (sort_insert key x r) = List.filter P (x :: r)).
  { intros x r. induction r as [| y r IH]; [reflexivity |].
    cbn [sort_insert]. destruct (String.leb (key x) (key y)) eqn:E;
      [reflexivity |].
    cbn [List.filter] in *. rewrite IH.
    destruct (P x) eqn:Px, (P y) eqn:Py; try reflexivity.
    rewrite (Hkey x y Px Py), leb_refl in E. discriminate E. }
  induction l as [| x r IH]; [reflexivity |].
  cbn [sort_by_key]. rewrite Hins. cbn [List.filter]. now rewrite IH.
Qed.

End SortFacts.

(** X12: [get_speaker_names] returns the speakers in the order of the
    store, and their display names sorted: the same names, each as often,
    ascending by the sort key (["-1"] for a name that starts with a star,
    the name itself otherwise), names of one key, and so the starred
    names, in the order of the store. *)
Theorem get_speaker_names_sorted `{Stores} (filter : option (TTSSpeaker -> bool)) :
  let names := snd (get_speaker_names filter) in
  let shown := List.map get_speaker_show_name (get_speakers filter) in
  fst (get_speaker_names filter) = get_speakers filter /\
  Permutation names shown /\
  StronglySorted
    (fun x y => String.leb (speaker_name_key x) (speaker_name_key y) = true)
    names /\
  (forall k,
     List.filter (fun x => String.eqb (speaker_name_key x) k) names
     = List.filter (fun x => String.eqb (speaker_name_key x) k) shown) /\
  List.filter (fun x => startswith x "*") names
  = List.filter (fun x => startswith x "*") shown.
Proof.
  intros names shown. unfold names, shown, get_speaker_names. cbn [fst snd].
  split; [reflexivity |]. split; [apply sort_by_key_perm |].
  split; [apply sort_by_key_sorted |]. split.
  - intros k. apply sort_by_key_stable.
    intros x y Hx Hy. apply String.eqb_eq in Hx, Hy. congruence.
  - apply sort_by_key_stable. intros x y Hx Hy.
    unfold speaker_name_key. now rewrite Hx, Hy.
Qed.

(** ** split_long_text *)

Lemma split_rows_nth `{Stores} (thr : pyval) (sentences : list string) :
  forall (i : Z) (k : nat) (text : string),
    nth_error sentences k = Some text ->
    nth_error (split_rows thr i sentences) k
    = Some (i + Z.of_nat k, text, splitter_len thr text).
Proof.
  induction sentences as [| t rest IH]; intros i [| k] text Hk;
    try discriminate Hk.
  - injection Hk as ->. simpl. now rewrite Z.add_0_r.
  - simpl in Hk. cbn [split_rows nth_error]. rewrite (IH _ _ _ Hk).
    do 3 f_equal. lia.
Qed.

Lemma split_rows_length `{Stores} (thr : pyval) (sentences : list string) (i : Z) :
  List.length (split_rows thr i sentences) = List.length sentences.
Proof.
  revert i. induction sentences as [| t rest IH]; intros i; simpl;
    [reflexivity | now rewrite IH].
Qed.

(** X13: [split_long_text] gives one row for each sentence of the
    splitter, in their order; the row of the sentence at position [k]
    carries the index [k], the normalized sentence followed by [eos], and
    the length the splitter measures on that final text, [eos] included. *)
Theorem split_long_text_rows `{Externals} `{Stores}
    (long_text_input : string) (spliter_threshold : pyval) (eos : string) :
  List.length (split_long_text long_text_input spliter_threshold eos)
  = List.length (splitter_parse spliter_threshold long_text_input) /\
  (forall (k : nat) (sentence : string),
     nth_error (splitter_parse spliter_threshold long_text_input) k
     = Some sentence ->
     nth_error (split_long_text long_text_input spliter_threshold eos) k
     = Some (Z.of_nat k, (text_normalize sentence ++ eos)%string,
             splitter_len spliter_threshold
               (text_normalize sentence ++ eos)%string)).
Proof.
  unfold split_long_text. split.
  - now rewrite split_rows_length, length_map.
  - intros k sentence Hk.
    rewrite (split_rows_nth _ _ 0 k (text_normalize sentence ++ eos)%string).
    + reflexivity.
    + rewrite nth_error_map, Hk. reflexivity.
Qed.

(** ** The codec of an encoder *)

(** X14: whatever the arguments, each of the five encoders opens with its
    own container format and with a codec that is a true value (never
    [None] or the empty string), and a codec that the caller gives and
    that is a true value is the one passed on. *)
Theorem encoders_codec_is_set (acodec bitrate : option pyval) :
  (oc_format (Mp3Encoder_open acodec bitrate) = "mp3" /\
   oc_format (WavEncoder_open acodec bitrate) = "wav" /\
   oc_format (OggEncoder_open acodec bitrate) = "ogg" /\
   oc_format (FlacEncoder_open acodec bitrate) = "flac" /\
   oc_format (AacEncoder_open acodec bitrate) = "aac") /\
  (truthy (oc_acodec (Mp3Encoder_open acodec bitrate)) = true /\
   truthy (oc_acodec (WavEncoder_open acodec bitrate)) = true /\
   truthy (oc_acodec (OggEncoder_open acodec bitrate)) = true /\
   truthy (oc_acodec (FlacEncoder_open acodec bitrate)) = true /\
   truthy (oc_acodec (AacEncoder_open acodec bitrate)) = true) /\
  (forall v, acodec = Some v -> truthy v = true ->
     oc_acodec (Mp3Encoder_open acodec bitrate) = v /\
     oc_acodec (WavEncoder_open acodec bitrate) = v /\
     oc_acodec (OggEncoder_open acodec bitrate) = v /\
     oc_acodec (FlacEncoder_open acodec bitrate) = v /\
     oc_acodec (AacEncoder_open acodec bitrate) = v).
Proof.
  split; [repeat split |]. split.
  - unfold Mp3Encoder_open, WavEncoder_open, OggEncoder_open, FlacEncoder_open,
      AacEncoder_open, py_or, kwarg.
    destruct acodec as [v |]; cbn; [| repeat split].
    destruct (truthy v) eqn:E; repeat split; assumption.
  - intros v -> Hv.
    unfold Mp3Encoder_open, WavEncoder_open, OggEncoder_open, FlacEncoder_open,
      AacEncoder_open, py_or, kwarg. cbn. rewrite Hv. repeat split.
Qed.

(** ** The text of load_spk_info *)

Lemma rstrip_cons (c : ascii) (s : string) :
  isspace c = false \/ rstrip s <> "" ->
  rstrip (String c s) = String c (rstrip s).
Proof.
  intros Hkeep. simpl. destruct (isspace c) eqn:Ec; [| reflexivity].
  destruct Hkeep as [Hc | Hs]; [discriminate Hc |].
  destruct (String.eqb_spec (rstrip s) ""); [contradiction | reflexivity].
Qed.

(** What follows a text that [rstrip] does not empty is all that [rstrip]
    can touch. *)
Lemma rstrip_app_keep (s t : string) :
  rstrip t <> "" -> rstrip (s ++ t) = (s ++ rstrip t)%string.
Proof.
  intros Ht. induction s as [| c s IH]; [reflexivity |].
  rewrite !append_cons, rstrip_cons; [now rewrite IH |].
  right. rewrite IH. destruct s; [exact Ht | discriminate].
Qed.

(** White space at the end goes. *)
Lemma rstrip_app_space (s w : string) :
  rstrip w = "" -> rstrip (s ++ w) = rstrip s.
Proof.
  intros Hw. induction s as [| c s IH]; [exact Hw |].
  rewrite append_cons. simpl. now rewrite IH.
Qed.

(** X15: for a speaker file that loads, [load_spk_info] logs nothing and
    returns three lines: the name and the gender as they are, and the
    description without the white space at its end; the result is neither
    of the placeholders. *)
Theorem load_spk_info_loaded `{Externals} (file : pyval) (speaker : TTSSpeaker) :
  file <> PyNone ->
  from_file file = inr speaker ->
  run (load_spk_info file)
  = ([], inr ("- name: " ++ spk_name speaker ++ nl
              ++ "- gender: " ++ spk_gender speaker ++ nl
              ++ "- describe:" ++ rstrip (" " ++ spk_desc speaker))%string) /\
  snd (run (load_spk_info file)) <> inr "empty" /\
  snd (run (load_spk_info file)) <> inr "load failed".
Proof.
  intros Hfile Hload.
  assert (Hstrip : forall N G D : string,
             strip (nl ++ "- name: " ++ N ++ nl ++ "- gender: " ++ G ++ nl
                    ++ "- describe: " ++ D ++ nl ++ "    ")
             = ("- name: " ++ N ++ nl ++ "- gender: " ++ G ++ nl
                ++ "- describe:" ++ rstrip (" " ++ D))%string).
  { intros N G D. unfold strip.
    assert (Hl : lstrip (nl ++ "- name: " ++ N ++ nl ++ "- gender: " ++ G ++ nl
                         ++ "- describe: " ++ D ++ nl ++ "    ")
                 = (("- name: " ++ N ++ nl ++ "- gender: " ++ G)
                    ++ (nl ++ "- describe:")
                    ++ ((" " ++ D) ++ (nl ++ "    ")))%string).
    { rewrite !append_assoc. reflexivity. }
    rewrite Hl.
    assert (Htail : rstrip ((nl ++ "- describe:") ++ (" " ++ D) ++ nl ++ "    ")
                    = ((nl ++ "- describe:") ++ rstrip (" " ++ D))%string).
    { replace ((nl ++ "- describe:") ++ (" " ++ D) ++ nl ++ "    ")%string
        with (((nl ++ "- describe:") ++ (" " ++ D)) ++ (nl ++ "    "))%string
        by (now rewrite !append_assoc).
      rewrite rstrip_app_space by reflexivity.
      unfold nl. rewrite !append_cons.
      repeat (rewrite rstrip_cons;
              [f_equal | first [left; reflexivity | right; simpl; discriminate]]).
      all: try reflexivity. }
    rewrite rstrip_app_keep.
    - rewrite Htail, !append_assoc. reflexivity.
    - rewrite Htail. unfold nl. rewrite append_cons. discriminate. }
  assert (Hrun : run (load_spk_info file)
                 = ([], inr (strip (nl ++ "- name: " ++ spk_name speaker ++ nl
                                    ++ "- gender: " ++ spk_gender speaker ++ nl
                                    ++ "- describe: " ++ spk_desc speaker ++ nl
                                    ++ "    ")))).
  { unfold run, load_spk_info. destruct file; try contradiction;
      unfold try_except, bind, lift, ret; rewrite Hload; reflexivity. }
  rewrite Hrun, Hstrip. cbn [snd].
  split; [reflexivity |].
  split; intros E;
    apply (f_equal (fun r : exn + string =>
                      match r with
                      | inr (String c _) => Some c
                      | _ => None
                      end)) in E;
    discriminate E.
Qed.

(** The sample file ["ok.json"]. *)
Lemma load_spk_info_loaded_witness :
  PyStr "ok.json" <> PyNone /\
  run (load_spk_info (H := unstyled) (PyStr "ok.json"))
  = ([], inr ("- name: from_file" ++ nl ++ "- gender: *" ++ nl ++ "- describe:")%string).
Proof.
  split; [discriminate |].
  apply (load_spk_info_loaded (H := unstyled) (PyStr "ok.json")
           (a_speaker "from_file")).
  - discriminate.
  - reflexivity.
Defined.

(** ** The prompt of refine_text determines the directives *)

Section PromptTokens.
Local Arguments String.append !s1 s2 : simpl nomatch.

Local Abbreviation no_bracket :=
  (fun s : string => Forall (fun c : ascii => c <> "]"%char) (list_ascii_of_string s)).

Lemma digits_no_bracket (u : Decimal.uint) :
  no_bracket (NilEmpty.string_of_uint u).
Proof.
  induction u; simpl; constructor; try assumption; discriminate.
Qed.

Lemma str_of_int_no_bracket (z : Z) : no_bracket (str_of_int z).
Proof.
  unfold str_of_int, NilZero.string_of_int, NilZero.string_of_uint.
  destruct (Z.to_int z) as [u | u]; destruct u; simpl;
    repeat (constructor; [discriminate |]);
    try apply digits_no_bracket; constructor.
Qed.

Lemma str_of_int_inj (z z' : Z) : str_of_int z = str_of_int z' -> z = z'.
Proof.
  unfold str_of_int. intros E.
  assert (Hnorm : forall n, Z.to_int n <> Decimal.Pos Decimal.Nil /\
                            Z.to_int n <> Decimal.Neg Decimal.Nil).
  { intros n. split; intros Hn; pose proof (DecimalZ.of_to n) as Hof;
      rewrite Hn in Hof; simpl in Hof; subst n; discriminate Hn. }
  apply DecimalZ.to_int_inj.
  pose proof (NilZero.isi (Z.to_int z) (proj1 (Hnorm z)) (proj2 (Hnorm z))) as H1.
  pose proof (NilZero.isi (Z.to_int z') (proj1 (Hnorm z')) (proj2 (Hnorm z'))) as H2.
  rewrite E in H1. congruence.
Qed.

(** A text without a closing bracket ends at the first closing bracket
    behind it. *)
Lemma bracket_cancel (s s' r r' : string) :
  no_bracket s -> no_bracket s' ->
  (s ++ "]" ++ r)%string = (s' ++ "]" ++ r')%string -> s = s' /\ r = r'.
Proof.
  revert s'. induction s as [| c s IH]; intros [| c' s'] Hs Hs' E; simpl in *.
  - injection E as ->. now split.
  - injection E as <- _. inversion Hs' as [| ? ? Hc _]. now contradiction Hc.
  - injection E as -> _. inversion Hs as [| ? ? Hc _]. now contradiction Hc.
  - injection E as -> E. inversion Hs; inversion Hs'; subst.
    destruct (IH s') as [-> ->]; auto.
Qed.

Lemma token_cancel (name : string) (k k' : Z) (r r' : string) :
  (name ++ str_of_int k ++ "]" ++ r)%string
  = (name ++ str_of_int k' ++ "]" ++ r')%string ->
  k = k' /\ r = r'.
Proof.
  intros E. apply String.app_inj in E.
  apply bracket_cancel in E as [E ->]; try apply str_of_int_no_bracket.
  split; [now apply str_of_int_inj | reflexivity].
Qed.

End PromptTokens.

Ltac prompt_cases E :=
  repeat first
    [ apply token_cancel in E; destruct E as [? E]
    | rewrite !append_cons in E; discriminate E ].

(** X16: two calls of [refine_text] hand the same prompt to the refiner
    only when their four directives are the same: the prompt tells which
    directives were set, and to what. *)
Theorem refine_prompt_determines (oral speed rf_break laugh : Z)
    (oral' speed' rf_break' laugh' : Z) :
  join (refine_prompt oral speed rf_break laugh)
  = join (refine_prompt oral' speed' rf_break' laugh') ->
  oral = oral' /\ speed = speed' /\ rf_break = rf_break' /\ laugh = laugh'.
Proof.
  rewrite !refine_prompt_in_order. intros E.
  destruct (Z.eqb_spec oral (-1)), (Z.eqb_spec speed (-1)),
    (Z.eqb_spec rf_break (-1)), (Z.eqb_spec laugh (-1)),
    (Z.eqb_spec oral' (-1)), (Z.eqb_spec speed' (-1)),
    (Z.eqb_spec rf_break' (-1)), (Z.eqb_spec laugh' (-1));
    cbn [join fold_right app] in E; rewrite ?append_assoc in E;
    prompt_cases E; subst; repeat split; reflexivity.
Qed.

(** The directives [oral = 2] and [break = 3] on both sides. *)
Lemma refine_prompt_determines_witness :
  join (refine_prompt 2 (-1) 3 (-1)) = "[oral_2][break_3]" /\
  (2 = 2 /\ -1 = -1 /\ 3 = 3 /\ -1 = -1).
Proof.
  split; [reflexivity |].
  apply (refine_prompt_determines 2 (-1) 3 (-1) 2 (-1) 3 (-1)). reflexivity.
Defined.

(** ** Sample runs of the listings *)

(** The names come back sorted, the starred ones first here and in the
    order of the store, while the speakers stay in the order of the store:
    the two lists of one call are not aligned. *)
Example get_speaker_names_sample :
  let result := get_speaker_names (H0 := sample_stores) None in
  List.map spk_name (fst result) = ["zed"; "*amy"; "bob"; "*al"; "eve"] /\
  snd result = ["*amy"; "*al"; "bob"; "female : eve"; "male : zed"] /\
  snd (get_speaker_names (H0 := sample_stores)
         (Some (fun s => String.eqb (spk_gender s) "*")))
  = ["*amy"; "*al"].
Proof. repeat split. Qed.

Example split_long_text_sample :
  split_long_text (H := unstyled) (H0 := sample_stores)
    "Hello world" (PyInt 100) "[uv_break]"
  = [(0, "Hello[uv_break]", 15); (1, " world[uv_break]", 16)].
Proof. reflexivity. Qed.

(** ** The resolved seed is a fixed point of the clamp *)

(** X17: the seed that the clamp gives, for whatever value it accepts, is
    given back unchanged when it is passed in again. *)
Theorem clamp_seed_fixed_point (v : pyval) (s : Z) :
  clamp_seed v = inr s -> clamp_seed (PyInt s) = inr s.
Proof.
  intros Hs. pose proof (clamp_seed_range v s Hs) as Hr.
  rewrite clamp_seed_int by lia. f_equal. lia.
Qed.

(** The float [1.5], which resolves to [1]. *)
Lemma clamp_seed_fixed_point_witness :
  clamp_seed (PyFloat 0x1.8p0) = inr 1 /\ clamp_seed (PyInt 1) = inr 1.
Proof.
  split; [reflexivity |].
  apply (clamp_seed_fixed_point (PyFloat 0x1.8p0) 1). reflexivity.
Defined.
